(** * ResumeSense: the Flask routing layer [backend/api/routes.py]

    A shallow embedding of the four routes ([/analyze], [/history],
    [/resume/<id>], [/analysis/<id>]) and of the pieces of Flask, SQLAlchemy
    and Python they lean on, followed by the properties of the routes.

    Conventions.
    - A Python [str] is a [string]; [bytes] is a list of bytes; [None] is
      [None] of an [option]; a float score is a rational.
    - The objects of the mapped classes [Resume], [Job] and [AnalysisResult]
      are records whose [id] and [created_at] are [None] until the session
      flushes them.  The session keeps the Python objects in an identity map
      (a heap indexed by handles), so that a [commit] is seen through every
      variable that names the object.
    - A route body runs in a monad with the session as state and three
      outcomes: a value, an early [return] of a response, a raised exception.
      The state survives an exception: nothing is rolled back.
    - The NLP and ML collaborators, the PDF parser and [Config] live outside
      this file of the repository; they are the fields of [Env]. *)

From Stdlib Require Import ZArith QArith String Ascii List Bool Lia.
From Stdlib Require Import Sorting.Sorted Sorting.Permutation.
Import ListNotations.

Local Open Scope string_scope.
Local Open Scope list_scope.
Local Open Scope Z_scope.

Set Implicit Arguments.
Set Warnings "-register-all".

(* ===================================================================== *)
(** * Python values *)
(* ===================================================================== *)

Definition number := Q.
Definition datetime := Z.
Definition bytes := list Byte.byte.

(** [dt.isoformat()]: the text of a timestamp, kept symbolic. *)
Inductive isotext : Type := isoformat (dt : datetime).

(** The loosely typed documents the collaborators hand back. *)
Inductive json : Type :=
| JNull
| JBool (b : bool)
| JNum (x : number)
| JStr (s : string)
| JList (items : list json)
| JDict (entries : list (string * json)).

(** [raise Exception(message)]; [str(e)] is the message. *)
Inductive PyException : Type := Exception (message : string).

Definition str (e : PyException) : string :=
  match e with Exception m => m end.

(** What calling into code outside this file can do. *)
Inductive Result (A : Type) : Type :=
| Ok (value : A)
| Raise (e : PyException).
Arguments Ok {A} value.
Arguments Raise {A} e.

(** Truth value of a [str] or [None]: only the empty string and [None] are
    false. *)
Definition str_bool (s : string) : bool :=
  match s with EmptyString => false | String _ _ => true end.

Definition opt_str_bool (o : option string) : bool :=
  match o with None => false | Some s => str_bool s end.

(** [s[:n]] *)
Definition slice_to (n : nat) (s : string) : string := substring 0 n s.

(** [c in s] for a one-character [c]. *)
Fixpoint contains (c : ascii) (s : string) : bool :=
  match s with
  | EmptyString => false
  | String a s' => Ascii.eqb a c || contains c s'
  end.

(** [s.rsplit(sep, 1)]: split once, at the last [sep]. *)
Fixpoint rsplit1 (sep : ascii) (s : string) : list string :=
  match s with
  | EmptyString => [EmptyString]
  | String a s' =>
      match rsplit1 sep s' with
      | [hd; tl] => [String a hd; tl]
      | _ => if Ascii.eqb a sep then [EmptyString; s'] else [String a s']
      end
  end.

(** [c.lower()] on the ASCII letters. *)
Definition lower_ascii (c : ascii) : ascii :=
  let n := nat_of_ascii c in
  if (65 <=? n)%nat && (n <=? 90)%nat then ascii_of_nat (n + 32) else c.

Fixpoint lower (s : string) : string :=
  match s with
  | EmptyString => EmptyString
  | String a s' => String (lower_ascii a) (lower s')
  end.

(** [x in xs] for a collection of strings. *)
Definition str_in (x : string) (xs : list string) : bool :=
  existsb (String.eqb x) xs.

(* ===================================================================== *)
(** * The mapped classes of [backend.db.database] *)
(* ===================================================================== *)

Module Resume.
Record t : Type := Build {
  id : option Z;
  resume_text : string;
  created_at : option datetime;
  updated_at : option datetime
}.
End Resume.

Module Job.
Record t : Type := Build {
  id : option Z;
  job_description : string;
  created_at : option datetime
}.
End Job.

(** The dictionaries the scorers return: the score under its key, and the
    remaining keys as a document. *)
Record MatchResult : Type := {
  mr_match_score : number;
  mr_rest : json
}.

Record ATSResult : Type := {
  ar_ats_score : number;
  ar_rest : json
}.

Record QualityResult : Type := {
  qr_quality_score : number;
  qr_rest : json
}.

(** [{"findings": ..., "stats": ...}] *)
Record PowerVerbs : Type := {
  findings : list json;
  stats : json
}.

Module AnalysisResult.
Record t : Type := Build {
  id : option Z;
  resume_id : option Z;
  job_id : option Z;
  match_score : option number;
  ats_score : number;
  quality_score : number;
  ats_flags : ATSResult;
  power_verb_suggestions : PowerVerbs;
  match_details : option MatchResult;
  created_at : option datetime
}.
End AnalysisResult.

(* ===================================================================== *)
(** * The relational store *)
(* ===================================================================== *)

(** The rows a commit wrote, in the order they were written. *)
Inductive Statement : Type :=
| INSERT_resumes (id : Z)
| INSERT_jobs (id : Z)
| INSERT_analysis_results (id : Z).

(** The three tables, the sequence behind each surrogate key (the last value
    it handed out), the store's clock, and the log of its inserts.  The store
    is taken to be reliable: it never refuses a well-formed statement. *)
Record Database : Type := {
  resumes : list Resume.t;
  jobs : list Job.t;
  analysis_results : list AnalysisResult.t;
  resumes_id_seq : Z;
  jobs_id_seq : Z;
  analysis_results_id_seq : Z;
  clock : datetime;
  inserts : list Statement
}.

(** A column default: the value given, or else the default. *)
Definition column_default {A : Type} (given : option A) (dflt : A) : A :=
  match given with Some v => v | None => dflt end.

Definition insert_resume (r : Resume.t) (d : Database) : Resume.t * Database :=
  let k := column_default (Resume.id r) (resumes_id_seq d + 1) in
  let r' := Resume.Build (Some k) (Resume.resume_text r)
              (Some (column_default (Resume.created_at r) (clock d)))
              (Some (column_default (Resume.updated_at r) (clock d))) in
  (r', {| resumes := resumes d ++ [r'];
          jobs := jobs d;
          analysis_results := analysis_results d;
          resumes_id_seq :=
            match Resume.id r with Some _ => resumes_id_seq d | None => k end;
          jobs_id_seq := jobs_id_seq d;
          analysis_results_id_seq := analysis_results_id_seq d;
          clock := clock d;
          inserts := inserts d ++ [INSERT_resumes k] |}).

Definition insert_job (j : Job.t) (d : Database) : Job.t * Database :=
  let k := column_default (Job.id j) (jobs_id_seq d + 1) in
  let j' := Job.Build (Some k) (Job.job_description j)
              (Some (column_default (Job.created_at j) (clock d))) in
  (j', {| resumes := resumes d;
          jobs := jobs d ++ [j'];
          analysis_results := analysis_results d;
          resumes_id_seq := resumes_id_seq d;
          jobs_id_seq :=
            match Job.id j with Some _ => jobs_id_seq d | None => k end;
          analysis_results_id_seq := analysis_results_id_seq d;
          clock := clock d;
          inserts := inserts d ++ [INSERT_jobs k] |}).

Definition insert_analysis_result (a : AnalysisResult.t) (d : Database)
  : AnalysisResult.t * Database :=
  let k := column_default (AnalysisResult.id a) (analysis_results_id_seq d + 1) in
  let a' := AnalysisResult.Build (Some k)
              (AnalysisResult.resume_id a) (AnalysisResult.job_id a)
              (AnalysisResult.match_score a) (AnalysisResult.ats_score a)
              (AnalysisResult.quality_score a) (AnalysisResult.ats_flags a)
              (AnalysisResult.power_verb_suggestions a)
              (AnalysisResult.match_details a)
              (Some (column_default (AnalysisResult.created_at a) (clock d))) in
  (a', {| resumes := resumes d;
          jobs := jobs d;
          analysis_results := analysis_results d ++ [a'];
          resumes_id_seq := resumes_id_seq d;
          jobs_id_seq := jobs_id_seq d;
          analysis_results_id_seq :=
            match AnalysisResult.id a with
            | Some _ => analysis_results_id_seq d
            | None => k
            end;
          clock := clock d;
          inserts := inserts d ++ [INSERT_analysis_results k] |}).

(** Time passes between two transactions. *)
Definition tick (d : Database) : Database :=
  {| resumes := resumes d;
     jobs := jobs d;
     analysis_results := analysis_results d;
     resumes_id_seq := resumes_id_seq d;
     jobs_id_seq := jobs_id_seq d;
     analysis_results_id_seq := analysis_results_id_seq d;
     clock := clock d + 1;
     inserts := inserts d |}.

Definition opt_Z_eqb (a b : option Z) : bool :=
  match a, b with
  | Some x, Some y => x =? y
  | _, _ => false   (* NULL = anything is not true *)
  end.

(** [query(Resume).filter(Resume.id == k).first()] and its siblings. *)
Definition first_resume (k : Z) (d : Database) : option Resume.t :=
  find (fun r => opt_Z_eqb (Resume.id r) (Some k)) (resumes d).

Definition first_job (k : Z) (d : Database) : option Job.t :=
  find (fun j => opt_Z_eqb (Job.id j) (Some k)) (jobs d).

Definition first_analysis_result (k : Z) (d : Database)
  : option AnalysisResult.t :=
  find (fun a => opt_Z_eqb (AnalysisResult.id a) (Some k)) (analysis_results d).

(** The relationships [item.resume] and [item.job]: the row the foreign key
    names, [None] when the key is null or names no row. *)
Definition AnalysisResult_resume (d : Database) (item : AnalysisResult.t)
  : option Resume.t :=
  match AnalysisResult.resume_id item with
  | Some k => first_resume k d
  | None => None
  end.

Definition AnalysisResult_job (d : Database) (item : AnalysisResult.t)
  : option Job.t :=
  match AnalysisResult.job_id item with
  | Some k => first_job k d
  | None => None
  end.

(** [ORDER BY created_at DESC]: PostgreSQL sorts a null as larger than every
    value, so nulls come first; [created_desc a b] says [a] may stand
    before [b]. *)
Definition created_desc (a b : option datetime) : bool :=
  match a, b with
  | None, _ => true
  | Some _, None => false
  | Some x, Some y => y <=? x
  end.

Fixpoint insert_by_created_at_desc (a : AnalysisResult.t)
  (l : list AnalysisResult.t) : list AnalysisResult.t :=
  match l with
  | [] => [a]
  | b :: l' =>
      if created_desc (AnalysisResult.created_at b) (AnalysisResult.created_at a)
      then b :: insert_by_created_at_desc a l'
      else a :: b :: l'
  end.

(** A stable sort.  SQL leaves the order of equal keys open: a property
    below either holds for every such order or assumes that the creation
    times are distinct. *)
Definition order_by_created_at_desc (l : list AnalysisResult.t)
  : list AnalysisResult.t :=
  fold_right insert_by_created_at_desc [] (rev l).

(** [LIMIT n]: PostgreSQL rejects a negative count.  It also rejects a
    count above its bigint range, which is not modelled here: a property
    that promises an answer assumes the count within that range. *)
Definition limit {A : Type} (n : Z) (rows : list A) : Result (list A) :=
  if n <? 0 then Raise (Exception "LIMIT must not be negative")
  else Ok (firstn (Z.to_nat n) rows).

(* ===================================================================== *)
(** * The SQLAlchemy session *)
(* ===================================================================== *)

(** What lies outside a request: the store and the console. *)
Record World : Type := {
  database : Database;
  stdout : list string
}.

Inductive entity : Type :=
| AResume (r : Resume.t)
| AJob (j : Job.t)
| AnAnalysisResult (a : AnalysisResult.t).

(** A Python variable holds a reference into the identity map. *)
Definition ref := nat.

Record Session : Type := {
  world : World;
  identity_map : list entity;
  pending : list ref
}.

(** [next(get_db())]: a fresh session on the store. *)
Definition get_db (w : World) : Session :=
  {| world := w; identity_map := []; pending := [] |}.

Definition with_database (d : Database) (s : Session) : Session :=
  {| world := {| database := d; stdout := stdout (world s) |};
     identity_map := identity_map s;
     pending := pending s |}.

Fixpoint set_nth {A : Type} (n : nat) (x : A) (l : list A) : list A :=
  match n, l with
  | _, [] => []
  | O, _ :: l' => x :: l'
  | S n', y :: l' => y :: set_nth n' x l'
  end.

(** Flushing one pending object: the row is written and the object takes the
    generated values. *)
Definition flush_object (h : ref) (s : Session) : Session :=
  match nth_error (identity_map s) h with
  | Some (AResume r) =>
      let (r', d') := insert_resume r (database (world s)) in
      {| world := {| database := d'; stdout := stdout (world s) |};
         identity_map := set_nth h (AResume r') (identity_map s);
         pending := pending s |}
  | Some (AJob j) =>
      let (j', d') := insert_job j (database (world s)) in
      {| world := {| database := d'; stdout := stdout (world s) |};
         identity_map := set_nth h (AJob j') (identity_map s);
         pending := pending s |}
  | Some (AnAnalysisResult a) =>
      let (a', d') := insert_analysis_result a (database (world s)) in
      {| world := {| database := d'; stdout := stdout (world s) |};
         identity_map := set_nth h (AnAnalysisResult a') (identity_map s);
         pending := pending s |}
  | None => s
  end.

Definition is_persistent (e : entity) : bool :=
  match e with
  | AResume r => match Resume.id r with Some _ => true | None => false end
  | AJob j => match Job.id j with Some _ => true | None => false end
  | AnAnalysisResult a =>
      match AnalysisResult.id a with Some _ => true | None => false end
  end.

(* ===================================================================== *)
(** * Requests and responses *)
(* ===================================================================== *)

(** werkzeug's [FileStorage]: an upload is true when it has a file name. *)
Record FileStorage : Type := {
  filename : option string;
  stream : bytes
}.

Definition read (file : FileStorage) : bytes := stream file.

(** The fields of a [POST /analyze] request that the route reads:
    [request.files["resume_file"]], [request.form["resume_text"]] and
    [request.form["job_description"]], each [None] when the key is absent. *)
Record Request : Type := {
  files_resume_file : option FileStorage;
  form_resume_text : option string;
  form_job_description : option string
}.

(** [d.get(key)] and [d.get(key, default)] on a form field. *)
Definition get {A : Type} (field : option A) : option A := field.

Definition get_default {A : Type} (field : option A) (default : A) : A :=
  match field with Some v => v | None => default end.

(** A query argument read with [type=int]: absent, present but refused by
    [int()], or an integer. *)
Inductive QueryArg : Type :=
| Absent
| NotAnInt (raw : string)
| AnInt (n : Z).

(** [request.args.get(key, default, type=int)]: the default also stands in
    for a value [int()] refuses. *)
Definition get_int (arg : QueryArg) (default : Z) : Z :=
  match arg with
  | AnInt n => n
  | Absent | NotAnInt _ => default
  end.

Module Results.
(** The [results] dictionary of [analyze_resume] when it is returned. *)
Record t : Type := Build {
  match_score : option number;
  match_details : option MatchResult;
  ats_score : number;
  ats_report : ATSResult;
  power_verbs : PowerVerbs;
  quality_score : number;
  quality_details : QualityResult;
  resume_insights : json;
  analysis_id : option Z;
  resume_id : option Z;
  job_id : option Z
}.
End Results.

Module HistoryEntry.
Record t : Type := Build {
  id : option Z;
  resume_id : option Z;
  job_id : option Z;
  match_score : option number;
  ats_score : number;
  quality_score : number;
  created_at : option isotext;
  resume_preview : string;
  jd_preview : option string
}.
End HistoryEntry.

Module ResumeJson.
Record t : Type := Build {
  id : option Z;
  resume_text : string;
  created_at : option isotext;
  updated_at : option isotext
}.
End ResumeJson.

Module AnalysisJson.
Record t : Type := Build {
  id : option Z;
  resume_id : option Z;
  job_id : option Z;
  match_score : option number;
  ats_score : number;
  quality_score : number;
  ats_flags : ATSResult;
  power_verb_suggestions : PowerVerbs;
  match_details : option MatchResult;
  created_at : option isotext;
  resume_text : option string;
  job_description : option string
}.
End AnalysisJson.

(** What [jsonify] is given. *)
Inductive Payload : Type :=
| ErrorObject (error : string)
| ResultsObject (results : Results.t)
| HistoryArray (history : list HistoryEntry.t)
| ResumeObject (resume : ResumeJson.t)
| AnalysisObject (analysis : AnalysisJson.t).

(** A view returns the pair (body, status). *)
Definition Response : Type := Payload * Z.

Definition jsonify (p : Payload) : Payload := p.

Definition status_code (r : Response) : Z := snd r.

(* ===================================================================== *)
(** * Route bodies: state, early return, exceptions *)
(* ===================================================================== *)

Inductive Outcome (A : Type) : Type :=
| Value (a : A)
| Returned (r : Response)
| Raised (e : PyException).
Arguments Value {A} a.
Arguments Returned {A} r.
Arguments Raised {A} e.

Definition Body (A : Type) : Type := Session -> Outcome A * Session.

Definition ret {A : Type} (a : A) : Body A := fun s => (Value a, s).

Definition bind {A B : Type} (c : Body A) (k : A -> Body B) : Body B :=
  fun s =>
    match c s with
    | (Value a, s') => k a s'
    | (Returned r, s') => (Returned r, s')
    | (Raised e, s') => (Raised e, s')
    end.

Declare Scope body_scope.
Delimit Scope body_scope with body.
Notation "x <- c ;; k" := (bind c (fun x => k))
  (at level 61, c at next level, right associativity) : body_scope.
Notation "c ;; k" := (bind c (fun _ => k))
  (at level 61, right associativity) : body_scope.
Local Open Scope body_scope.

(** [return r] *)
Definition return_ {A : Type} (r : Response) : Body A :=
  fun s => (Returned r, s).

(** [raise e] *)
Definition raise {A : Type} (e : PyException) : Body A :=
  fun s => (Raised e, s).

(** A call into code outside this file. *)
Definition call {A : Type} (r : Result A) : Body A :=
  match r with
  | Ok v => ret v
  | Raise e => raise e
  end.

(** A read of the store through the session. *)
Definition query {A : Type} (q : Database -> A) : Body A :=
  fun s => (Value (q (database (world s))), s).

(** [obj = Class(...)]: a new transient object. *)
Definition new (e : entity) : Body ref :=
  fun s => (Value (length (identity_map s)),
            {| world := world s;
               identity_map := identity_map s ++ [e];
               pending := pending s |}).

(** [db.add(obj)] *)
Definition db_add (h : ref) : Body unit :=
  fun s => (Value tt,
            {| world := world s;
               identity_map := identity_map s;
               pending := pending s ++ [h] |}).

(** [db.commit()]: flush what is pending, in the order it was added, and end
    the transaction. *)
Definition db_commit : Body unit :=
  fun s =>
    let s' := fold_left (fun acc h => flush_object h acc) (pending s) s in
    (Value tt,
     {| world := {| database := tick (database (world s'));
                    stdout := stdout (world s') |};
        identity_map := identity_map s';
        pending := [] |}).

(** [db.refresh(obj)]: reload a persistent object from its row.  No route
    updates a row, so the reloaded attributes are those of the flush; an
    object without a row cannot be refreshed. *)
Definition db_refresh (h : ref) : Body unit :=
  fun s =>
    match nth_error (identity_map s) h with
    | Some e =>
        if is_persistent e then (Value tt, s)
        else (Raised (Exception "Instance is not persistent within this Session"), s)
    | None => (Raised (Exception "Instance is not persistent within this Session"), s)
    end.

(** Reading the attributes of the object behind a variable. *)
Definition the_resume (h : ref) : Body Resume.t :=
  fun s =>
    match nth_error (identity_map s) h with
    | Some (AResume r) => (Value r, s)
    | _ => (Raised (Exception "not a Resume"), s)
    end.

Definition the_job (h : ref) : Body Job.t :=
  fun s =>
    match nth_error (identity_map s) h with
    | Some (AJob j) => (Value j, s)
    | _ => (Raised (Exception "not a Job"), s)
    end.

Definition the_analysis (h : ref) : Body AnalysisResult.t :=
  fun s =>
    match nth_error (identity_map s) h with
    | Some (AnAnalysisResult a) => (Value a, s)
    | _ => (Raised (Exception "not an AnalysisResult"), s)
    end.

(** [print(prefix, e)] *)
Definition print (prefix : string) (e : PyException) (w : World) : World :=
  {| database := database w;
     stdout := stdout w ++ [(prefix ++ " " ++ str e)%string] |}.

(** The frame every view shares:
    [try: db = next(get_db()); ... except Exception as e: print(...);
     return jsonify({"error": str(e)}), 500]. *)
Definition route (prefix : string) (body : Body Response) (w : World)
  : Response * World :=
  match body (get_db w) with
  | (Value r, s) => (r, world s)
  | (Returned r, s) => (r, world s)
  | (Raised e, s) =>
      ((jsonify (ErrorObject (str e)), 500), print prefix e (world s))
  end.

(* ===================================================================== *)
(** * The collaborators and the configuration *)
(* ===================================================================== *)

(** [Config.ALLOWED_EXTENSIONS], [PDFParser], [JDMatcher], [ATSChecker],
    [PowerVerbSuggester], [resume_scorer] and [ResumeInsights]: each call
    returns a value or raises. *)
Record Env : Type := {
  ALLOWED_EXTENSIONS : list string;
  extract_text_from_bytes : bytes -> Result (option string);
  compute_match_score : string -> string -> Result MatchResult;
  check_compliance : string -> Result ATSResult;
  find_weak_verbs : string -> Result (list json);
  get_power_verb_stats : string -> Result json;
  score_resume : string -> string -> Result QualityResult;
  extract_insights : string -> Result json
}.

(* ===================================================================== *)
(** * The routes *)
(* ===================================================================== *)

Section Routes.

Variable E : Env.

(** [allowed_file] *)
Definition allowed_file (filename : string) : bool :=
  contains "." filename &&
  str_in (lower (nth 1 (rsplit1 "." filename) "")) (ALLOWED_EXTENSIONS E).

(** [file and allowed_file(file.filename)] *)
Definition file_and_allowed (file : FileStorage) : bool :=
  match filename file with
  | Some name => str_bool name && allowed_file name
  | None => false
  end.

(** [x.id if x else None] for a variable that may hold no object. *)
Definition id_if (A : Type) (the : ref -> Body A) (id : A -> option Z)
  (x : option ref) : Body (option Z) :=
  match x with
  | Some h => o <- the h ;; ret (id o)
  | None => ret None
  end.

(** [POST /analyze] *)
Definition analyze_resume (request : Request) : World -> Response * World :=
  route "ERROR in /analyze:" (
    (* Extract resume text *)
    resume_text <-
      match files_resume_file request with
      | Some file =>
          if file_and_allowed file then
            resume_text <- call (extract_text_from_bytes E (read file)) ;;
            if negb (opt_str_bool resume_text)
            then return_ (jsonify (ErrorObject "Could not read PDF text"), 400)
            else ret resume_text
          else ret None
      | None => ret None
      end ;;
    let resume_text :=
      if negb (opt_str_bool resume_text)
      then get (form_resume_text request)
      else resume_text in
    match resume_text with
    | None | Some EmptyString =>
        return_ (jsonify (ErrorObject "No resume provided"), 400)
    | Some resume_text =>
    let jd_text := get_default (form_job_description request) "" in
    (* JD matching *)
    matching <-
      (if str_bool jd_text then
         match_result <- call (compute_match_score E resume_text jd_text) ;;
         ret (Some (mr_match_score match_result), Some match_result)
       else ret (None, None)) ;;
    let results_match_score := fst matching in
    let results_match_details := snd matching in
    (* ATS check *)
    ats_result <- call (check_compliance E resume_text) ;;
    (* Power verbs *)
    weak_verbs <- call (find_weak_verbs E resume_text) ;;
    verb_stats <- call (get_power_verb_stats E resume_text) ;;
    let results_power_verbs :=
      {| findings := firstn 10 weak_verbs; stats := verb_stats |} in
    (* Quality score *)
    quality_result <- call (score_resume E resume_text jd_text) ;;
    (* Resume insights *)
    insights <- call (extract_insights E resume_text) ;;
    (* Insert Resume *)
    new_resume <- new (AResume (Resume.Build None resume_text None None)) ;;
    db_add new_resume ;;
    db_commit ;;
    db_refresh new_resume ;;
    (* Insert Job (if exists) *)
    new_job <-
      (if str_bool jd_text then
         new_job <- new (AJob (Job.Build None jd_text None)) ;;
         db_add new_job ;;
         db_commit ;;
         db_refresh new_job ;;
         ret (Some new_job)
       else ret None) ;;
    (* Insert AnalysisResult *)
    new_resume_id <- (o <- the_resume new_resume ;; ret (Resume.id o)) ;;
    new_job_id <- id_if the_job Job.id new_job ;;
    new_analysis <-
      new (AnAnalysisResult
             (AnalysisResult.Build None
                new_resume_id new_job_id
                results_match_score
                (ar_ats_score ats_result)
                (qr_quality_score quality_result)
                ats_result
                results_power_verbs
                results_match_details
                None)) ;;
    db_add new_analysis ;;
    db_commit ;;
    db_refresh new_analysis ;;
    analysis_id <- (o <- the_analysis new_analysis ;; ret (AnalysisResult.id o)) ;;
    resume_id <- (o <- the_resume new_resume ;; ret (Resume.id o)) ;;
    job_id <- id_if the_job Job.id new_job ;;
    return_
      (jsonify
         (ResultsObject
            (Results.Build
               results_match_score results_match_details
               (ar_ats_score ats_result) ats_result
               results_power_verbs
               (qr_quality_score quality_result) quality_result
               insights
               analysis_id resume_id job_id)),
       200)
    end).

(** [x.attr] where [x] may be [None]. *)
Definition getattr {A B : Type} (x : option A) (attr : A -> B) (name : string)
  : Body B :=
  match x with
  | Some o => ret (attr o)
  | None =>
      raise (Exception
               ("'NoneType' object has no attribute '" ++ name ++ "'")%string)
  end.

(** [x and len(x.attr) > 200] *)
Definition and_longer_than_200 {A : Type} (x : option A) (attr : A -> string)
  : bool :=
  match x with
  | Some o => (200 <? String.length (attr o))%nat
  | None => false
  end.

(** One turn of the loop of [get_history]: the dictionary appended for
    [item]. *)
Definition history_entry (item : AnalysisResult.t) : Body HistoryEntry.t :=
  item_resume <- query (fun d => AnalysisResult_resume d item) ;;
  item_job <- query (fun d => AnalysisResult_job d item) ;;
  resume_preview <-
    (if and_longer_than_200 item_resume Resume.resume_text
     then
       t <- getattr item_resume Resume.resume_text "resume_text" ;;
       ret (slice_to 200 t ++ "...")%string
     else getattr item_resume Resume.resume_text "resume_text") ;;
  jd_preview <-
    (if and_longer_than_200 item_job Job.job_description
     then
       t <- getattr item_job Job.job_description "job_description" ;;
       ret (Some (slice_to 200 t ++ "...")%string)
     else
       match item_job with
       | Some _ =>
           t <- getattr item_job Job.job_description "job_description" ;;
           ret (Some t)
       | None => ret None
       end) ;;
  ret (HistoryEntry.Build
         (AnalysisResult.id item)
         (AnalysisResult.resume_id item)
         (AnalysisResult.job_id item)
         (AnalysisResult.match_score item)
         (AnalysisResult.ats_score item)
         (AnalysisResult.quality_score item)
         (option_map isoformat (AnalysisResult.created_at item))
         resume_preview
         jd_preview).

(** [for item in query: history.append({...})] *)
Fixpoint for_each_append (items : list AnalysisResult.t)
  (history : list HistoryEntry.t) : Body (list HistoryEntry.t) :=
  match items with
  | [] => ret history
  | item :: rest =>
      entry <- history_entry item ;;
      for_each_append rest (history ++ [entry])
  end.

(** [GET /history] *)
Definition get_history (args_limit : QueryArg) : World -> Response * World :=
  route "ERROR in /history:" (
    let limit_ := get_int args_limit 20 in
    rows <- query (fun d => limit limit_
                       (order_by_created_at_desc (analysis_results d))) ;;
    rows <- call rows ;;
    history <- for_each_append rows [] ;;
    return_ (jsonify (HistoryArray history), 200)).

(** [GET /resume/<int:resume_id>] *)
Definition get_resume (resume_id : Z) : World -> Response * World :=
  route "ERROR in /resume:" (
    resume <- query (first_resume resume_id) ;;
    match resume with
    | None => return_ (jsonify (ErrorObject "Resume not found"), 404)
    | Some resume =>
        return_
          (jsonify
             (ResumeObject
                (ResumeJson.Build
                   (Resume.id resume)
                   (Resume.resume_text resume)
                   (option_map isoformat (Resume.created_at resume))
                   (option_map isoformat (Resume.updated_at resume)))),
           200)
    end).

(** [GET /analysis/<int:analysis_id>] *)
Definition get_analysis (analysis_id : Z) : World -> Response * World :=
  route "ERROR in /analysis:" (
    item <- query (first_analysis_result analysis_id) ;;
    match item with
    | None => return_ (jsonify (ErrorObject "Analysis result not found"), 404)
    | Some item =>
        item_resume <- query (fun d => AnalysisResult_resume d item) ;;
        item_job <- query (fun d => AnalysisResult_job d item) ;;
        return_
          (jsonify
             (AnalysisObject
                (AnalysisJson.Build
                   (AnalysisResult.id item)
                   (AnalysisResult.resume_id item)
                   (AnalysisResult.job_id item)
                   (AnalysisResult.match_score item)
                   (AnalysisResult.ats_score item)
                   (AnalysisResult.quality_score item)
                   (AnalysisResult.ats_flags item)
                   (AnalysisResult.power_verb_suggestions item)
                   (AnalysisResult.match_details item)
                   (option_map isoformat (AnalysisResult.created_at item))
                   (option_map Resume.resume_text item_resume)
                   (option_map Job.job_description item_job))),
           200)
    end).

End Routes.

(* ===================================================================== *)
(** * [analyze_resume] without the session *)
(* ===================================================================== *)

(** The same route written on the store alone, as a composition of pure
    steps; [analyze_resume_normal_form] below shows the two agree, and the
    properties of the route are read off this form. *)

Section AnalyzeNormalForm.

Variable E : Env.

(** How lines 43-56 end: an early response, an exception of the parser, or
    the resolved text. *)
Inductive Resolution : Type :=
| Rejected (r : Response)
| Failed (e : PyException)
| Resolved (resume_text : string).

Definition resolve_resume_text (request : Request) : Resolution :=
  let from_form :=
    match form_resume_text request with
    | None | Some EmptyString =>
        Rejected (ErrorObject "No resume provided", 400)
    | Some t => Resolved t
    end in
  match files_resume_file request with
  | Some file =>
      if file_and_allowed E file then
        match extract_text_from_bytes E (read file) with
        | Raise e => Failed e
        | Ok None | Ok (Some EmptyString) =>
            Rejected (ErrorObject "Could not read PDF text", 400)
        | Ok (Some t) => Resolved t
        end
      else from_form
  | None => from_form
  end.

(** What the five analyses leave in [results]. *)
Record Analyses : Type := {
  an_match : option MatchResult;
  an_ats : ATSResult;
  an_verbs : PowerVerbs;
  an_quality : QualityResult;
  an_insights : json
}.

Definition and_then {A B : Type} (r : Result A) (k : A -> Result B)
  : Result B :=
  match r with
  | Ok a => k a
  | Raise e => Raise e
  end.

Definition run_analyses (resume_text jd_text : string) : Result Analyses :=
  and_then (if str_bool jd_text
            then and_then (compute_match_score E resume_text jd_text)
                          (fun m => Ok (Some m))
            else Ok None) (fun m =>
  and_then (check_compliance E resume_text) (fun a =>
  and_then (find_weak_verbs E resume_text) (fun v =>
  and_then (get_power_verb_stats E resume_text) (fun s =>
  and_then (score_resume E resume_text jd_text) (fun q =>
  and_then (extract_insights E resume_text) (fun i =>
  Ok {| an_match := m; an_ats := a;
        an_verbs := {| findings := firstn 10 v; stats := s |};
        an_quality := q; an_insights := i |})))))).

(** The three transactions of lines 97-124. *)
Definition store_resume (resume_text : string) (d : Database)
  : Resume.t * Database :=
  let (r, d1) := insert_resume (Resume.Build None resume_text None None) d in
  (r, tick d1).

Definition store_job (jd_text : string) (d : Database)
  : option Job.t * Database :=
  if str_bool jd_text then
    let (j, d1) := insert_job (Job.Build None jd_text None) d in
    (Some j, tick d1)
  else (None, d).

Definition job_id_of (j : option Job.t) : option Z :=
  match j with Some j => Job.id j | None => None end.

Definition store_analysis (r : Resume.t) (j : option Job.t) (an : Analyses)
  (d : Database) : AnalysisResult.t * Database :=
  let (a, d1) :=
    insert_analysis_result
      (AnalysisResult.Build None (Resume.id r) (job_id_of j)
         (option_map mr_match_score (an_match an))
         (ar_ats_score (an_ats an))
         (qr_quality_score (an_quality an))
         (an_ats an) (an_verbs an) (an_match an) None) d in
  (a, tick d1).

Definition results_of (an : Analyses) (a : AnalysisResult.t) (r : Resume.t)
  (j : option Job.t) : Results.t :=
  Results.Build
    (option_map mr_match_score (an_match an)) (an_match an)
    (ar_ats_score (an_ats an)) (an_ats an)
    (an_verbs an)
    (qr_quality_score (an_quality an)) (an_quality an)
    (an_insights an)
    (AnalysisResult.id a) (Resume.id r) (job_id_of j).

Definition analyze_resume_nf (request : Request) (w : World)
  : Response * World :=
  match resolve_resume_text request with
  | Rejected r => (r, w)
  | Failed e => ((ErrorObject (str e), 500), print "ERROR in /analyze:" e w)
  | Resolved resume_text =>
      let jd_text := get_default (form_job_description request) "" in
      match run_analyses resume_text jd_text with
      | Raise e =>
          ((ErrorObject (str e), 500), print "ERROR in /analyze:" e w)
      | Ok an =>
          let (r, d1) := store_resume resume_text (database w) in
          let (j, d2) := store_job jd_text d1 in
          let (a, d3) := store_analysis r j an d2 in
          ((ResultsObject (results_of an a r j), 200),
           {| database := d3; stdout := stdout w |})
      end
  end.

End AnalyzeNormalForm.

(* ===================================================================== *)
(** * [get_history] without the session *)
(* ===================================================================== *)

(** The preview expression of lines 163-164 on a text that is there. *)
Definition preview (text : string) : string :=
  if (200 <? String.length text)%nat
  then (slice_to 200 text ++ "...")%string
  else text.

Definition no_resume_text : PyException :=
  Exception "'NoneType' object has no attribute 'resume_text'".

Definition entry_of (item : AnalysisResult.t) (r : Resume.t)
  (j : option Job.t) : HistoryEntry.t :=
  HistoryEntry.Build
    (AnalysisResult.id item)
    (AnalysisResult.resume_id item)
    (AnalysisResult.job_id item)
    (AnalysisResult.match_score item)
    (AnalysisResult.ats_score item)
    (AnalysisResult.quality_score item)
    (option_map isoformat (AnalysisResult.created_at item))
    (preview (Resume.resume_text r))
    (option_map (fun j => preview (Job.job_description j)) j).

Fixpoint entries_of (d : Database) (rows : list AnalysisResult.t)
  : Result (list HistoryEntry.t) :=
  match rows with
  | [] => Ok []
  | item :: rest =>
      match AnalysisResult_resume d item with
      | None => Raise no_resume_text
      | Some r =>
          and_then (entries_of d rest)
            (fun es => Ok (entry_of item r (AnalysisResult_job d item) :: es))
      end
  end.

Definition get_history_nf (args_limit : QueryArg) (w : World)
  : Response * World :=
  match limit (get_int args_limit 20)
          (order_by_created_at_desc (analysis_results (database w))) with
  | Raise e => ((ErrorObject (str e), 500), print "ERROR in /history:" e w)
  | Ok rows =>
      match entries_of (database w) rows with
      | Raise e =>
          ((ErrorObject (str e), 500), print "ERROR in /history:" e w)
      | Ok history => ((HistoryArray history, 200), w)
      end
  end.

(* ===================================================================== *)
(** * Vocabulary of the properties *)
(* ===================================================================== *)

(** Reading a key of the JSON object of a response: [None] stands for a
    null as well as for a key (or an object) that is not there. *)
Definition response_results (r : Response) : option Results.t :=
  match fst r with
  | ResultsObject res => Some res
  | _ => None
  end.

Definition response_field {A : Type} (key : Results.t -> option A)
  (r : Response) : option A :=
  match response_results r with
  | Some res => key res
  | None => None
  end.

Definition is_some {A : Type} (o : option A) : bool :=
  match o with Some _ => true | None => false end.

(** A job description counts as supplied when the field holds a non-empty
    text: this is the test of lines 66 and 104. *)
Definition jd_supplied (request : Request) : bool :=
  str_bool (get_default (form_job_description request) "").

(** The upload the route extracts text from, when there is one. *)
Definition accepted_file (E : Env) (request : Request) : option FileStorage :=
  match files_resume_file request with
  | Some file => if file_and_allowed E file then Some file else None
  | None => None
  end.

Definition with_form_resume_text (t : option string) (request : Request)
  : Request :=
  {| files_resume_file := files_resume_file request;
     form_resume_text := t;
     form_job_description := form_job_description request |}.

Definition with_form_job_description (jd : option string) (request : Request)
  : Request :=
  {| files_resume_file := files_resume_file request;
     form_resume_text := form_resume_text request;
     form_job_description := jd |}.

Definition with_compute_match_score
  (f : string -> string -> Result MatchResult) (E : Env) : Env :=
  {| ALLOWED_EXTENSIONS := ALLOWED_EXTENSIONS E;
     extract_text_from_bytes := extract_text_from_bytes E;
     compute_match_score := f;
     check_compliance := check_compliance E;
     find_weak_verbs := find_weak_verbs E;
     get_power_verb_stats := get_power_verb_stats E;
     score_resume := score_resume E;
     extract_insights := extract_insights E |}.

(** The preview of a source text as the specification words it: the first
    200 characters and an ellipsis, 203 characters at most, when the text is
    longer than 200 characters, and the text itself otherwise. *)
Definition is_preview_of (source p : string) : Prop :=
  ((200 < String.length source)%nat ->
   p = (substring 0 200 source ++ "...")%string /\
   (String.length p <= 203)%nat) /\
  ((String.length source <= 200)%nat -> p = source).

(** [a] may stand before [b] in a list ordered by creation time,
    descending. *)
Definition no_older (a b : AnalysisResult.t) : Prop :=
  created_desc (AnalysisResult.created_at a) (AnalysisResult.created_at b)
  = true.

(** A history entry shows an [AnalysisResult] row. *)
Definition shows (e : HistoryEntry.t) (a : AnalysisResult.t) : Prop :=
  HistoryEntry.id e = AnalysisResult.id a /\
  HistoryEntry.resume_id e = AnalysisResult.resume_id a /\
  HistoryEntry.job_id e = AnalysisResult.job_id a /\
  HistoryEntry.match_score e = AnalysisResult.match_score a /\
  HistoryEntry.ats_score e = AnalysisResult.ats_score a /\
  HistoryEntry.quality_score e = AnalysisResult.quality_score a /\
  HistoryEntry.created_at e
  = option_map isoformat (AnalysisResult.created_at a).

(* ===================================================================== *)
(** * A small deployment, for concrete runs *)
(* ===================================================================== *)

Module Example.

Definition match_result : MatchResult :=
  {| mr_match_score := (7 # 10)%Q;
     mr_rest := JDict [("matched_keywords", JList [JStr "python"])] |}.

Definition ats_result : ATSResult :=
  {| ar_ats_score := (8 # 10)%Q; ar_rest := JDict [("issues", JList [])] |}.

Definition quality_result : QualityResult :=
  {| qr_quality_score := (1 # 2)%Q; qr_rest := JNull |}.

(** A parser that reads nothing out of an empty upload, and scorers with
    fixed answers. *)
Definition env : Env :=
  {| ALLOWED_EXTENSIONS := ["pdf"];
     extract_text_from_bytes := fun b =>
       match b with
       | [] => Ok None
       | _ => Ok (Some "Led a team of five")
       end;
     compute_match_score := fun _ _ => Ok match_result;
     check_compliance := fun _ => Ok ats_result;
     find_weak_verbs := fun _ => Ok [JStr "helped"];
     get_power_verb_stats := fun _ => Ok (JDict [("weak", JNum (1 # 1)%Q)]);
     score_resume := fun _ _ => Ok quality_result;
     extract_insights := fun _ => Ok JNull |}.

Definition empty_db : Database :=
  {| resumes := []; jobs := []; analysis_results := [];
     resumes_id_seq := 0; jobs_id_seq := 0; analysis_results_id_seq := 0;
     clock := 1000; inserts := [] |}.

Definition world0 : World := {| database := empty_db; stdout := [] |}.

Definition text_request : Request :=
  {| files_resume_file := None;
     form_resume_text := Some "Built scalable systems";
     form_job_description := Some "Python developer" |}.

Definition text_only_request : Request :=
  {| files_resume_file := None;
     form_resume_text := Some "Built scalable systems";
     form_job_description := None |}.

Definition empty_pdf : FileStorage :=
  {| filename := Some "cv.PDF"; stream := [] |}.

Definition unreadable_request : Request :=
  {| files_resume_file := Some empty_pdf;
     form_resume_text := None;
     form_job_description := None |}.

Definition jd_only_request : Request :=
  {| files_resume_file := None;
     form_resume_text := None;
     form_job_description := Some "Python developer" |}.

(** The first analysis, with a job description: the store after it, the
    results it returns and the row it persists. *)
Definition world1 : World :=
  snd (analyze_resume env text_request world0).

Definition power_verbs1 : PowerVerbs :=
  {| findings := [JStr "helped"];
     stats := JDict [("weak", JNum (1 # 1)%Q)] |}.

Definition results1 : Results.t :=
  Results.Build (Some (7 # 10)%Q) (Some match_result)
    (8 # 10)%Q ats_result power_verbs1 (1 # 2)%Q quality_result JNull
    (Some 1) (Some 1) (Some 1).

Definition analysis1 : AnalysisResult.t :=
  AnalysisResult.Build (Some 1) (Some 1) (Some 1) (Some (7 # 10)%Q)
    (8 # 10)%Q (1 # 2)%Q ats_result power_verbs1 (Some match_result)
    (Some 1002).

(** The store after two analyses, the first with a job description. *)
Definition world2 : World :=
  snd (analyze_resume env text_only_request
         (snd (analyze_resume env text_request world0))).

(** What [GET /history?limit=1] shows of it: the second analysis. *)
Definition history1 : list HistoryEntry.t :=
  [HistoryEntry.Build (Some 2) (Some 2) None None (8 # 10)%Q (1 # 2)%Q
     (Some (isoformat 1004)) "Built scalable systems" None].

(** A resume of 201 characters, and the store after its analysis. *)
Definition long_text : string :=
  String.concat "" (repeat "a" 201).

Definition long_request : Request :=
  {| files_resume_file := None;
     form_resume_text := Some long_text;
     form_job_description := None |}.

Definition long_world : World :=
  snd (analyze_resume env long_request world0).

Definition long_history : list HistoryEntry.t :=
  [HistoryEntry.Build (Some 1) (Some 1) None None (8 # 10)%Q (1 # 2)%Q
     (Some (isoformat 1001))
     (String.concat "" (repeat "a" 200) ++ "...")%string None].




End Example.

(* ===================================================================== *)
(** * Consistency of the store *)
(* ===================================================================== *)

(** The request with its upload taken away. *)
Definition without_file (request : Request) : Request :=
  {| files_resume_file := None;
     form_resume_text := form_resume_text request;
     form_job_description := form_job_description request |}.

(** A surrogate key that its sequence has handed out. *)
Definition id_at_most (seq : Z) (id : option Z) : bool :=
  match id with
  | Some k => k <=? seq
  | None => false
  end.

(** A creation time that lies in the past of the store's clock. *)
Definition created_before (now : datetime) (t : option datetime) : bool :=
  match t with
  | Some t => t <? now
  | None => false
  end.

(** What the tables look like when only this layer has written them: every
    key was handed out by its sequence, every [AnalysisResult] was created
    in the past, refers to a stored [Resume] and, when it names a job, to a
    stored [Job]. *)
Definition consistent (d : Database) : bool :=
  forallb (fun r => id_at_most (resumes_id_seq d) (Resume.id r))
    (resumes d) &&
  forallb (fun j => id_at_most (jobs_id_seq d) (Job.id j)) (jobs d) &&
  forallb (fun a =>
             id_at_most (analysis_results_id_seq d) (AnalysisResult.id a) &&
             created_before (clock d) (AnalysisResult.created_at a) &&
             is_some (AnalysisResult_resume d a) &&
             (negb (is_some (AnalysisResult.job_id a))
              || is_some (AnalysisResult_job d a)))
    (analysis_results d).

(** The largest row count PostgreSQL's LIMIT takes (a bigint); the store
    refuses a larger one, and the properties of the history that promise an
    answer are stated for limits up to it. *)
Definition bigint_max : Z := 9223372036854775807.

(** No two stored analyses share a creation time (or lack one): then
    ORDER BY created_at DESC has one answer only. *)
Definition distinct_creation_times (d : Database) : Prop :=
  NoDup (map AnalysisResult.created_at (analysis_results d)).

(** The store grows: a later store keeps every older resume and job and
    does not turn its sequences or its clock back. *)
Definition extends (d d' : Database) : Prop :=
  (exists rs, resumes d' = resumes d ++ rs) /\
  (exists js, jobs d' = jobs d ++ js) /\
  resumes_id_seq d <= resumes_id_seq d' /\
  jobs_id_seq d <= jobs_id_seq d' /\
  analysis_results_id_seq d <= analysis_results_id_seq d' /\
  clock d <= clock d'.

Module Sample.

(** An upload whose extension is not allowed, beside a resume text. *)
Definition docx : FileStorage :=
  {| filename := Some "cv.docx"; stream := [Byte.x50; Byte.x4b] |}.

Definition docx_request : Request :=
  {| files_resume_file := Some docx;
     form_resume_text := Some "Built scalable systems";
     form_job_description := None |}.

(** A readable upload. *)
Definition pdf : FileStorage :=
  {| filename := Some "cv.pdf"; stream := [Byte.x25; Byte.x50] |}.

Definition pdf_request : Request :=
  {| files_resume_file := Some pdf;
     form_resume_text := Some "ignored";
     form_job_description := None |}.

(** A deployment whose compliance checker is down. *)
Definition failing_env : Env :=
  {| ALLOWED_EXTENSIONS := ALLOWED_EXTENSIONS Example.env;
     extract_text_from_bytes := extract_text_from_bytes Example.env;
     compute_match_score := compute_match_score Example.env;
     check_compliance := fun _ => Raise (Exception "checker unavailable");
     find_weak_verbs := find_weak_verbs Example.env;
     get_power_verb_stats := get_power_verb_stats Example.env;
     score_resume := score_resume Example.env;
     extract_insights := extract_insights Example.env |}.

(** The rows the first example analysis persists. *)
Definition resume1 : Resume.t :=
  Resume.Build (Some 1) "Built scalable systems" (Some 1000) (Some 1000).

(** What the second example analysis, without a job description,
    returns. *)
Definition results2 : Results.t :=
  Results.Build None None (8 # 10)%Q Example.ats_result Example.power_verbs1
    (1 # 2)%Q Example.quality_result JNull (Some 2) (Some 2) None.

(** The whole history after the two example analyses, newest first. *)
Definition history2 : list HistoryEntry.t :=
  Example.history1
  ++ [HistoryEntry.Build (Some 1) (Some 1) (Some 1) (Some (7 # 10)%Q)
        (8 # 10)%Q (1 # 2)%Q (Some (isoformat 1002))
        "Built scalable systems" (Some "Python developer")].

End Sample.

(* ===================================================================== *)
(** * The route and its normal form agree *)
(* ===================================================================== *)

Unset Implicit Arguments.

Ltac by_cases_on_calls :=
  repeat (cbv beta iota delta [bind ret call raise return_ and_then];
          match goal with
          | |- context [match ?r with Ok _ => _ | Raise _ => _ end] =>
              lazymatch r with
              | context [match _ with _ => _ end] => fail
              | _ => destruct r
              end
          end).

Ltac after_resolution jd :=
  unfold run_analyses, store_job;
  destruct (get_default jd "");
  cbv beta iota delta [opt_str_bool str_bool negb get];
  by_cases_on_calls; reflexivity.

Lemma analyze_resume_normal_form (E : Env) (request : Request) (w : World) :
  analyze_resume E request w = analyze_resume_nf E request w.
Proof.
  unfold analyze_resume, analyze_resume_nf, resolve_resume_text, route.
  destruct request as [file rt jd];
    cbn [files_resume_file form_resume_text form_job_description].
  destruct w as [d out].
  destruct file as [file|].
  - destruct (file_and_allowed E file) eqn:Hacc.
    + unfold bind at 1. unfold bind at 1. unfold call at 1.
      destruct (extract_text_from_bytes E (read file)) as [t|e].
      * destruct t as [[|c t]|]; try reflexivity.
        after_resolution jd.
      * reflexivity.
    + destruct rt as [[|c t]|]; try reflexivity.
      after_resolution jd.
  - destruct rt as [[|c t]|]; try reflexivity.
    after_resolution jd.
Qed.

Lemma world_eta (w : World) :
  {| database := database w; stdout := stdout w |} = w.
Proof. destruct w; reflexivity. Qed.

(** With a store that accepts every commit, as modelled, a response other
    than 200 comes with an untouched store. *)
Lemma analyze_resume_failure_writes_nothing (E : Env) (request : Request)
  (w : World) :
  status_code (fst (analyze_resume E request w)) <> 200 ->
  database (snd (analyze_resume E request w)) = database w.
Proof.
  rewrite analyze_resume_normal_form. unfold analyze_resume_nf.
  destruct (resolve_resume_text E request); try reflexivity.
  destruct (run_analyses E resume_text _); try reflexivity.
  unfold store_resume, store_job, store_analysis.
  destruct (str_bool _); cbn; intros H; now contradiction H.
Qed.

(** The shape of a successful run: the text was resolved, the analyses
    returned, and the three transactions ran. *)
Lemma analyze_resume_200 (E : Env) (request : Request) (w : World)
  (resp : Response) (w' : World) :
  analyze_resume E request w = (resp, w') ->
  status_code resp = 200 ->
  exists resume_text an,
    resolve_resume_text E request = Resolved resume_text /\
    run_analyses E resume_text
      (get_default (form_job_description request) "") = Ok an /\
    let jd_text := get_default (form_job_description request) "" in
    let (r, d1) := store_resume resume_text (database w) in
    let (j, d2) := store_job jd_text d1 in
    let (a, d3) := store_analysis r j an d2 in
    resp = (ResultsObject (results_of an a r j), 200) /\
    w' = {| database := d3; stdout := stdout w |}.
Proof.
  rewrite analyze_resume_normal_form. unfold analyze_resume_nf.
  destruct (resolve_resume_text E request) as [r|e|resume_text] eqn:Hres.
  - intros H; inversion H; subst. 
    unfold resolve_resume_text in Hres.
    repeat match type of Hres with
           | context [match ?x with _ => _ end] => destruct x
           end; inversion Hres; subst; discriminate.
  - intros H; inversion H; subst; discriminate.
  - destruct (run_analyses E resume_text _) as [an|e] eqn:Han.
    + intros H _. exists resume_text, an. split; [reflexivity|]. split; [exact Han|].
      cbv zeta.
      destruct (store_resume resume_text (database w)) as [r d1].
      destruct (store_job _ d1) as [j d2].
      destruct (store_analysis r j an d2) as [a d3].
      inversion H; subst. split; reflexivity.
    + intros H; inversion H; subst; discriminate.
Qed.

(* ===================================================================== *)
(** * Properties of [POST /analyze] *)
(* ===================================================================== *)

(** Before the commit a new object has no identifier: the one the
    [AnalysisResult] refers to exists only because the [Resume] was
    committed first. *)
Lemma id_is_null_until_commit (e : Resume.t) (w : World) :
  Resume.id e = None ->
  fst ((h <- new (AResume e) ;; db_add h ;;
        o <- the_resume h ;; ret (Resume.id o))%body (get_db w))
  = Value None /\
  exists k,
    fst ((h <- new (AResume e) ;; db_add h ;; db_commit ;; db_refresh h ;;
          o <- the_resume h ;; ret (Resume.id o))%body (get_db w))
    = Value (Some k).
Proof.
  intros H. split.
  - cbn. now rewrite H.
  - exists (resumes_id_seq (database w) + 1). cbn. now rewrite H.
Qed.

(** C1. A request answered with 200 adds exactly one Resume row and exactly
    one AnalysisResult row; the AnalysisResult's resume_id is the generated
    id of the new Resume; the store sees the inserts in the order Resume,
    Job (only when a job description was supplied), AnalysisResult; and each
    row is committed, its identifier generated, before the next one that
    refers to it is written (the commit times are strictly increasing). *)
Theorem analyze_resume_inserts_resume_job_analysis
  (E : Env) (request : Request) (w : World) (resp : Response) (w' : World) :
  analyze_resume E request w = (resp, w') ->
  status_code resp = 200 ->
  exists (r : Resume.t) (a : AnalysisResult.t) (rid aid t_r t_a : Z)
         (job_rows : list Job.t) (job_inserts : list Statement),
    resumes (database w') = resumes (database w) ++ [r] /\
    analysis_results (database w')
    = analysis_results (database w) ++ [a] /\
    jobs (database w') = jobs (database w) ++ job_rows /\
    Resume.id r = Some rid /\
    rid = resumes_id_seq (database w) + 1 /\
    AnalysisResult.id a = Some aid /\
    AnalysisResult.resume_id a = Resume.id r /\
    inserts (database w')
    = inserts (database w)
      ++ [INSERT_resumes rid] ++ job_inserts ++ [INSERT_analysis_results aid] /\
    (if jd_supplied request
     then exists j jid t_j,
         job_rows = [j] /\ job_inserts = [INSERT_jobs jid] /\
         Job.id j = Some jid /\ AnalysisResult.job_id a = Some jid /\
         Job.created_at j = Some t_j /\ t_r < t_j < t_a
     else job_rows = [] /\ job_inserts = [] /\
          AnalysisResult.job_id a = None) /\
    Resume.created_at r = Some t_r /\
    AnalysisResult.created_at a = Some t_a /\
    t_r < t_a.
Proof.
  intros Hrun H200.
  destruct (analyze_resume_200 _ _ _ _ _ Hrun H200)
    as (resume_text & an & _ & _ & Hshape).
  cbv zeta in Hshape. unfold jd_supplied.
  unfold store_resume, store_job, store_analysis in Hshape.
  destruct (str_bool (get_default (form_job_description request) ""));
    cbn in Hshape; destruct Hshape as [_ ->]; cbn.
  - do 7 eexists. exists [INSERT_jobs (jobs_id_seq (database w) + 1)].
    do 7 (split; [ reflexivity | ]).
    split; [ now rewrite <- !app_assoc | ].
    split; [ | split; [ reflexivity | split; [ reflexivity | lia ] ] ].
    do 3 eexists. do 5 (split; [ reflexivity | ]). lia.
  - do 6 eexists. exists [], [].
    do 2 (split; [ reflexivity | ]).
    split; [ now rewrite app_nil_r | ].
    do 4 (split; [ reflexivity | ]).
    split; [ now rewrite <- !app_assoc | ].
    split; [ now repeat split | ].
    split; [ reflexivity | split; [ reflexivity | lia ] ].
Qed.

Lemma analyze_resume_inserts_witness :
  exists (r : Resume.t) (a : AnalysisResult.t) (rid aid t_r t_a : Z)
         (job_rows : list Job.t) (job_inserts : list Statement),
    let w := Example.world0 in
    let w' := snd (analyze_resume Example.env Example.text_request w) in
    resumes (database w') = resumes (database w) ++ [r] /\
    analysis_results (database w')
    = analysis_results (database w) ++ [a] /\
    jobs (database w') = jobs (database w) ++ job_rows /\
    Resume.id r = Some rid /\
    rid = resumes_id_seq (database w) + 1 /\
    AnalysisResult.id a = Some aid /\
    AnalysisResult.resume_id a = Resume.id r /\
    inserts (database w')
    = inserts (database w)
      ++ [INSERT_resumes rid] ++ job_inserts ++ [INSERT_analysis_results aid] /\
    (if jd_supplied Example.text_request
     then exists j jid t_j,
         job_rows = [j] /\ job_inserts = [INSERT_jobs jid] /\
         Job.id j = Some jid /\ AnalysisResult.job_id a = Some jid /\
         Job.created_at j = Some t_j /\ t_r < t_j < t_a
     else job_rows = [] /\ job_inserts = [] /\
          AnalysisResult.job_id a = None) /\
    Resume.created_at r = Some t_r /\
    AnalysisResult.created_at a = Some t_a /\
    t_r < t_a.
Proof.
  apply (analyze_resume_inserts_resume_job_analysis
           Example.env Example.text_request Example.world0
           (fst (analyze_resume Example.env Example.text_request Example.world0))
           (snd (analyze_resume Example.env Example.text_request Example.world0))).
  - apply surjective_pairing.
  - reflexivity.
Defined.

Lemma and_then_Ok {A B : Type} (r : Result A) (k : A -> Result B) (b : B) :
  and_then r k = Ok b -> exists a, r = Ok a /\ k a = Ok b.
Proof. destruct r; cbn; [ eauto | discriminate ]. Qed.

Ltac invert_and_then H :=
  repeat match type of H with
         | and_then _ _ = Ok _ =>
             let a := fresh "a" in
             let Ha := fresh "Hcall" in
             apply and_then_Ok in H; destruct H as (a & Ha & H)
         end.

Lemma run_analyses_match (E : Env) (resume_text jd_text : string)
  (an : Analyses) :
  run_analyses E resume_text jd_text = Ok an ->
  is_some (an_match an) = str_bool jd_text.
Proof.
  unfold run_analyses. intros H. invert_and_then H.
  inversion H; subst; cbn [an_match].
  destruct (str_bool jd_text).
  - invert_and_then Hcall. now inversion Hcall.
  - now inversion Hcall.
Qed.

(** The response and the store of a run, in each of its three endings. *)
Ltac analyze_cases E request w Hres Han :=
  rewrite !analyze_resume_normal_form; unfold analyze_resume_nf;
  destruct (resolve_resume_text E request) as [?r|?e|?resume_text] eqn:Hres;
  [ | | destruct (run_analyses E _ _) as [?an|?e] eqn:Han;
        [ unfold store_resume, store_job, store_analysis | ] ].

Lemma resolve_rejects_with_an_error (E : Env) (request : Request)
  (r : Response) :
  resolve_resume_text E request = Rejected r ->
  (exists msg, fst r = ErrorObject msg) /\ status_code r = 400.
Proof.
  unfold resolve_resume_text.
  repeat match goal with
         | |- context [match ?x with _ => _ end] => destruct x
         end; intros H; inversion H; subst;
    (split; [ eexists; reflexivity | reflexivity ]).
Qed.

(** C2. In every response of the analyze route, match_score and
    match_details are both present or both null; without a job description
    both are null, in the response and in the AnalysisResult row the request
    persists; with one, a 200 response and its row carry both. *)
Theorem match_score_and_match_details_go_together
  (E : Env) (request : Request) (w : World) :
  let resp := fst (analyze_resume E request w) in
  let d' := database (snd (analyze_resume E request w)) in
  is_some (response_field Results.match_score resp)
  = is_some (response_field Results.match_details resp) /\
  (jd_supplied request = false ->
   response_field Results.match_score resp = None /\
   response_field Results.match_details resp = None) /\
  (jd_supplied request = true -> status_code resp = 200 ->
   is_some (response_field Results.match_score resp) = true /\
   is_some (response_field Results.match_details resp) = true) /\
  exists persisted,
    analysis_results d' = analysis_results (database w) ++ persisted /\
    Forall (fun a =>
              AnalysisResult.match_score a
              = response_field Results.match_score resp /\
              AnalysisResult.match_details a
              = response_field Results.match_details resp)
           persisted.
Proof.
  cbv zeta. unfold jd_supplied.
  analyze_cases E request w Hres Han.
  - destruct (resolve_rejects_with_an_error _ _ _ Hres) as [[msg Hmsg] H400].
    destruct r as [p st]; cbn in Hmsg, H400; subst; cbn.
    repeat split; try discriminate.
    exists []. split; [ now rewrite app_nil_r | constructor ].
  - cbn. repeat split; try discriminate.
    exists []. split; [ now rewrite app_nil_r | constructor ].
  - pose proof (run_analyses_match _ _ _ _ Han) as Hm.
    destruct (str_bool (get_default (form_job_description request) ""));
      cbn; destruct (an_match an) as [m|]; try discriminate Hm;
      repeat split; try discriminate;
      eexists; (split; [ reflexivity | repeat constructor ]).
  - cbn. repeat split; try discriminate.
    exists []. split; [ now rewrite app_nil_r | constructor ].
Qed.

Lemma match_score_and_match_details_witness :
  let resp := fst (analyze_resume Example.env Example.text_only_request
                     Example.world0) in
  jd_supplied Example.text_only_request = false /\
  response_field Results.match_score resp = None /\
  response_field Results.match_details resp = None.
Proof.
  split; [ reflexivity | ].
  apply (match_score_and_match_details_go_together
           Example.env Example.text_only_request Example.world0).
  reflexivity.
Defined.

(** C3, as stated, fails on a request that is not answered with 200: here a
    job description is supplied, no resume is, and the route answers 400
    without creating a Job row. *)
Lemma job_description_without_resume_creates_no_job :
  let run := analyze_resume Example.env Example.jd_only_request
               Example.world0 in
  jd_supplied Example.jd_only_request = true /\
  status_code (fst run) = 400 /\
  jobs (database (snd run)) = jobs (database Example.world0) /\
  ~ ((exists j, jobs (database (snd run))
                = jobs (database Example.world0) ++ [j])
     <-> jd_supplied Example.jd_only_request = true).
Proof.
  cbv zeta. repeat split.
  intros [_ H]. destruct (H eq_refl) as [j Hj]. discriminate Hj.
Qed.

(** C3, amended. For a request answered with 200, a Job row is created
    exactly when a non-empty job description was supplied: then the
    returned job_id and the job_id of the persisted AnalysisResult are the
    generated id of the new Job row; otherwise the returned job_id and the
    row's job_id are null and the jobs table is unchanged. *)
Theorem job_row_iff_job_description_on_success
  (E : Env) (request : Request) (w : World) (resp : Response) (w' : World) :
  analyze_resume E request w = (resp, w') ->
  status_code resp = 200 ->
  exists a,
    analysis_results (database w') = analysis_results (database w) ++ [a] /\
    AnalysisResult.job_id a = response_field Results.job_id resp /\
    if jd_supplied request
    then exists j jid,
        jobs (database w') = jobs (database w) ++ [j] /\
        Job.id j = Some jid /\
        jid = jobs_id_seq (database w) + 1 /\
        Job.job_description j
        = get_default (form_job_description request) "" /\
        response_field Results.job_id resp = Some jid
    else jobs (database w') = jobs (database w) /\
         response_field Results.job_id resp = None.
Proof.
  intros Hrun H200.
  destruct (analyze_resume_200 _ _ _ _ _ Hrun H200)
    as (resume_text & an & _ & _ & Hshape).
  cbv zeta in Hshape. unfold jd_supplied.
  unfold store_resume, store_job, store_analysis in Hshape.
  destruct (str_bool (get_default (form_job_description request) ""));
    cbn in Hshape; destruct Hshape as [-> ->]; cbn.
  - eexists. do 2 (split; [ reflexivity | ]).
    do 2 eexists. now repeat split.
  - eexists. now repeat split.
Qed.

Lemma job_row_iff_job_description_witness :
  let run := analyze_resume Example.env Example.text_request
               Example.world0 in
  status_code (fst run) = 200 /\
  exists a,
    analysis_results (database (snd run))
    = analysis_results (database Example.world0) ++ [a] /\
    AnalysisResult.job_id a = response_field Results.job_id (fst run) /\
    if jd_supplied Example.text_request
    then exists j jid,
        jobs (database (snd run)) = jobs (database Example.world0) ++ [j] /\
        Job.id j = Some jid /\
        jid = jobs_id_seq (database Example.world0) + 1 /\
        Job.job_description j
        = get_default (form_job_description Example.text_request) "" /\
        response_field Results.job_id (fst run) = Some jid
    else jobs (database (snd run)) = jobs (database Example.world0) /\
         response_field Results.job_id (fst run) = None.
Proof.
  cbv zeta. split; [ reflexivity | ].
  apply (job_row_iff_job_description_on_success
           Example.env Example.text_request Example.world0
           (fst (analyze_resume Example.env Example.text_request
                   Example.world0))
           (snd (analyze_resume Example.env Example.text_request
                   Example.world0))).
  - apply surjective_pairing.
  - reflexivity.
Defined.

(** C4, as stated, fails on the message: an accepted upload that yields no
    text and no resume_text field is answered with "Could not read PDF
    text", not with "No resume provided". *)
Lemma unreadable_upload_is_not_no_resume_provided :
  let run := analyze_resume Example.env Example.unreadable_request
               Example.world0 in
  accepted_file Example.env Example.unreadable_request
  = Some Example.empty_pdf /\
  extract_text_from_bytes Example.env (read Example.empty_pdf) = Ok None /\
  form_resume_text Example.unreadable_request = None /\
  run = ((ErrorObject "Could not read PDF text", 400), Example.world0) /\
  fst (fst run) <> ErrorObject "No resume provided".
Proof.
  cbv zeta. repeat split. discriminate.
Qed.

(** C4, amended. When the resume_text field is absent or empty: with no
    accepted upload the route answers 400 "No resume provided"; with an
    accepted upload whose extraction returns no usable text it answers 400
    "Could not read PDF text".  Either way nothing is written: the store is
    the one the request found. *)
Theorem no_resume_text_is_an_input_error
  (E : Env) (request : Request) (w : World) :
  opt_str_bool (form_resume_text request) = false ->
  match accepted_file E request with
  | None =>
      analyze_resume E request w
      = ((ErrorObject "No resume provided", 400), w)
  | Some file =>
      forall t,
        extract_text_from_bytes E (read file) = Ok t ->
        opt_str_bool t = false ->
        analyze_resume E request w
        = ((ErrorObject "Could not read PDF text", 400), w)
  end.
Proof.
  intros Hform. rewrite analyze_resume_normal_form.
  unfold analyze_resume_nf, resolve_resume_text, accepted_file.
  destruct (files_resume_file request) as [file|].
  - destruct (file_and_allowed E file).
    + intros t -> Ht. destruct t as [[|c t]|]; [ | discriminate Ht | ];
        reflexivity.
    + destruct (form_resume_text request) as [[|c t]|];
        [ | discriminate Hform | ]; reflexivity.
  - destruct (form_resume_text request) as [[|c t]|];
      [ | discriminate Hform | ]; reflexivity.
Qed.

Lemma no_resume_text_witness :
  opt_str_bool (form_resume_text Example.jd_only_request) = false /\
  analyze_resume Example.env Example.jd_only_request Example.world0
  = ((ErrorObject "No resume provided", 400), Example.world0).
Proof.
  split; [ reflexivity | ].
  apply (no_resume_text_is_an_input_error
           Example.env Example.jd_only_request Example.world0).
  reflexivity.
Defined.

(** C5. When the upload is accepted (it has a file name whose extension is
    allowed) and the extraction returns no usable text, the route answers
    400 and leaves the store alone, whatever the resume_text field holds;
    and with an accepted upload the resume_text field is never read: the
    route behaves the same for every value of it. *)
Theorem unreadable_upload_is_an_input_error_without_fallback
  (E : Env) (request : Request) (w : World) (file : FileStorage) :
  files_resume_file request = Some file ->
  file_and_allowed E file = true ->
  (forall t,
     extract_text_from_bytes E (read file) = Ok t ->
     opt_str_bool t = false ->
     forall resume_text,
       analyze_resume E (with_form_resume_text resume_text request) w
       = ((ErrorObject "Could not read PDF text", 400), w)) /\
  (forall resume_text,
     analyze_resume E (with_form_resume_text resume_text request) w
     = analyze_resume E request w).
Proof.
  intros Hfile Hacc. split.
  - intros t Hext Ht resume_text.
    rewrite analyze_resume_normal_form.
    unfold analyze_resume_nf, resolve_resume_text.
    cbn [with_form_resume_text files_resume_file].
    rewrite Hfile, Hacc, Hext.
    destruct t as [[|c t]|]; [ | discriminate Ht | ]; reflexivity.
  - intros resume_text.
    rewrite !analyze_resume_normal_form.
    unfold analyze_resume_nf, resolve_resume_text.
    cbn [with_form_resume_text files_resume_file form_job_description].
    rewrite Hfile, Hacc. reflexivity.
Qed.

Lemma unreadable_upload_witness :
  files_resume_file Example.unreadable_request = Some Example.empty_pdf /\
  file_and_allowed Example.env Example.empty_pdf = true /\
  analyze_resume Example.env
    (with_form_resume_text (Some "Built scalable systems")
       Example.unreadable_request)
    Example.world0
  = ((ErrorObject "Could not read PDF text", 400), Example.world0).
Proof.
  split; [ reflexivity | ]. split; [ reflexivity | ].
  apply (proj1 (unreadable_upload_is_an_input_error_without_fallback
                  Example.env Example.unreadable_request Example.world0
                  Example.empty_pdf eq_refl eq_refl)
           None eq_refl eq_refl).
Defined.

(** The file name decides alone whether an upload is accepted: it must be
    non-empty and hold a dot followed by an allowed extension, in any
    case. *)
Lemma file_and_allowed_iff (E : Env) (file : FileStorage) :
  file_and_allowed E file = true <->
  exists name,
    filename file = Some name /\ name <> "" /\
    contains "." name = true /\
    str_in (lower (nth 1 (rsplit1 "." name) "")) (ALLOWED_EXTENSIONS E) = true.
Proof.
  unfold file_and_allowed, allowed_file. split.
  - destruct (filename file) as [name|]; [ | discriminate ].
    intros H. apply andb_true_iff in H as [Hname H].
    apply andb_true_iff in H as [Hdot Hext].
    exists name. repeat split; try assumption.
    intros ->. discriminate Hname.
  - intros (name & -> & Hne & Hdot & Hext).
    rewrite Hdot, Hext. destruct name; [ now contradiction Hne | reflexivity ].
Qed.

(** C9. A job_description field that is present but empty is treated
    exactly as an absent one: the whole run (response, store, console) is
    the same; no match is computed (the run does not depend on the matcher);
    match_score, match_details and job_id are null in the response; and no
    Job row is created. *)
Theorem empty_job_description_is_no_job_description
  (E : Env) (request : Request) (w : World) :
  let empty := with_form_job_description (Some "") request in
  let absent := with_form_job_description None request in
  analyze_resume E empty w = analyze_resume E absent w /\
  (forall matcher,
     analyze_resume (with_compute_match_score matcher E) empty w
     = analyze_resume E empty w) /\
  response_field Results.match_score (fst (analyze_resume E empty w)) = None /\
  response_field Results.match_details (fst (analyze_resume E empty w))
  = None /\
  response_field Results.job_id (fst (analyze_resume E empty w)) = None /\
  jobs (database (snd (analyze_resume E empty w))) = jobs (database w).
Proof.
  cbv zeta. split; [ reflexivity | ]. split.
  - intros matcher. rewrite !analyze_resume_normal_form. reflexivity.
  - rewrite analyze_resume_normal_form. unfold analyze_resume_nf.
    change (resolve_resume_text E (with_form_job_description (Some "") request))
      with (resolve_resume_text E request).
    destruct (resolve_resume_text E request) as [r|e|resume_text] eqn:Hres.
    + destruct (resolve_rejects_with_an_error _ _ _ Hres) as [[msg Hmsg] _].
      unfold response_field, response_results. cbn [fst snd].
      rewrite Hmsg. now repeat split.
    + now repeat split.
    + cbn [with_form_job_description form_job_description get_default].
      destruct (run_analyses E resume_text "") as [an|e] eqn:Han;
        [ | now repeat split ].
      pose proof (run_analyses_match _ _ _ _ Han) as Hm.
      unfold response_field, store_resume, store_job, store_analysis; cbn.
      destruct (an_match an); [ discriminate Hm | ].
      now repeat split.
Qed.

(* ===================================================================== *)
(** * Strings and previews *)
(* ===================================================================== *)

Lemma length_append (s1 s2 : string) :
  String.length (s1 ++ s2) = (String.length s1 + String.length s2)%nat.
Proof. induction s1 as [|c s1 IH]; cbn; [ reflexivity | now rewrite IH ]. Qed.

Lemma length_slice_to (n : nat) (s : string) :
  String.length (slice_to n s) = Nat.min n (String.length s).
Proof.
  unfold slice_to. revert s.
  induction n as [|n IH]; intros [|c s]; cbn; try reflexivity.
  now rewrite IH.
Qed.

Lemma slice_to_short (n : nat) (s : string) :
  (String.length s <= n)%nat -> slice_to n s = s.
Proof.
  unfold slice_to. revert s.
  induction n as [|n IH]; intros [|c s]; cbn; intros H;
    try reflexivity; try lia.
  f_equal. apply IH. lia.
Qed.

Lemma preview_is_preview_of (text : string) :
  is_preview_of text (preview text).
Proof.
  unfold is_preview_of, preview.
  destruct (Nat.ltb_spec 200 (String.length text)) as [Hlong|Hshort].
  - split; [ intros _ | lia ]. split; [ reflexivity | ].
    rewrite length_append, length_slice_to.
    change (String.length "...") with 3%nat. lia.
  - split; [ lia | reflexivity ].
Qed.

Lemma length_preview (text : string) :
  (200 < String.length text)%nat -> String.length (preview text) = 203%nat.
Proof.
  intros H. unfold preview.
  destruct (Nat.ltb_spec 200 (String.length text)); [ | lia ].
  rewrite length_append, length_slice_to.
  change (String.length "...") with 3%nat. lia.
Qed.

(* ===================================================================== *)
(** * Ordering by creation time *)
(* ===================================================================== *)

Section Ordering.

Lemma created_desc_total (a b : option datetime) :
  created_desc a b = false -> created_desc b a = true.
Proof.
  destruct a as [x|], b as [y|]; cbn; try easy.
  intros H. apply Z.leb_gt in H. apply Z.leb_le. lia.
Qed.

Lemma created_desc_trans (a b c : option datetime) :
  created_desc a b = true -> created_desc b c = true ->
  created_desc a c = true.
Proof.
  destruct a as [x|], b as [y|], c as [z|]; cbn; try easy.
  rewrite !Z.leb_le. lia.
Qed.

(** On rows that carry a creation time, [no_older] compares the times. *)
Lemma no_older_Some (a b : AnalysisResult.t) (x y : datetime) :
  AnalysisResult.created_at a = Some x ->
  AnalysisResult.created_at b = Some y ->
  no_older a b <-> y <= x.
Proof.
  intros Ha Hb. unfold no_older. rewrite Ha, Hb. cbn. apply Z.leb_le.
Qed.

Lemma no_older_trans (a b c : AnalysisResult.t) :
  no_older a b -> no_older b c -> no_older a c.
Proof. apply created_desc_trans. Qed.

Lemma insert_permutation (a : AnalysisResult.t) (l : list AnalysisResult.t) :
  Permutation (insert_by_created_at_desc a l) (a :: l).
Proof.
  induction l as [|b l IH]; cbn; [ reflexivity | ].
  destruct (created_desc (AnalysisResult.created_at b) (AnalysisResult.created_at a)); [ | reflexivity ].
  rewrite IH. apply perm_swap.
Qed.

Lemma order_by_permutation (l : list AnalysisResult.t) :
  Permutation (order_by_created_at_desc l) l.
Proof.
  unfold order_by_created_at_desc.
  rewrite (Permutation_rev l) at 2.
  induction (rev l) as [|a l' IH]; cbn; [ reflexivity | ].
  now rewrite insert_permutation, IH.
Qed.

Lemma insert_hd_rel (a b : AnalysisResult.t) (l : list AnalysisResult.t) :
  no_older b a -> HdRel no_older b l ->
  HdRel no_older b (insert_by_created_at_desc a l).
Proof.
  intros Hba Hl. destruct l as [|c l]; cbn.
  - now constructor.
  - destruct (created_desc (AnalysisResult.created_at c) (AnalysisResult.created_at a)); constructor;
      [ now inversion Hl | exact Hba ].
Qed.

Lemma insert_sorted (a : AnalysisResult.t) (l : list AnalysisResult.t) :
  Sorted no_older l -> Sorted no_older (insert_by_created_at_desc a l).
Proof.
  induction 1 as [|b l Hs IH Hhd]; cbn.
  - repeat constructor.
  - destruct (created_desc (AnalysisResult.created_at b) (AnalysisResult.created_at a)) eqn:Hba.
    + constructor; [ exact IH | now apply insert_hd_rel ].
    + constructor; [ now constructor | ].
      constructor. now apply created_desc_total.
Qed.

Lemma order_by_sorted (l : list AnalysisResult.t) :
  StronglySorted no_older (order_by_created_at_desc l).
Proof.
  apply Sorted_StronglySorted.
  - intros a b c. apply no_older_trans.
  - unfold order_by_created_at_desc.
    induction (rev l) as [|a l' IH]; cbn;
      [ constructor | now apply insert_sorted ].
Qed.

Lemma strongly_sorted_app (l1 l2 : list AnalysisResult.t) :
  StronglySorted no_older (l1 ++ l2) ->
  StronglySorted no_older l1 /\
  forall a b, In a l1 -> In b l2 -> no_older a b.
Proof.
  induction l1 as [|x l1 IH]; cbn; intros H.
  - split; [ constructor | intros a b [] ].
  - inversion H as [|? ? Hs Hall]; subst.
    destruct (IH Hs) as [Hs1 Hcross].
    apply Forall_app in Hall as [Hall1 Hall2].
    split; [ now constructor | ].
    intros a b [<-|Ha] Hb; [ | now apply Hcross ].
    now apply (proj1 (Forall_forall _ _) Hall2).
Qed.

End Ordering.

(* ===================================================================== *)
(** * Properties of [GET /history] *)
(* ===================================================================== *)

Lemma history_entry_normal_form (item : AnalysisResult.t) (s : Session) :
  history_entry item s
  = match AnalysisResult_resume (database (world s)) item with
    | Some r =>
        (Value (entry_of item r
                  (AnalysisResult_job (database (world s)) item)), s)
    | None => (Raised no_resume_text, s)
    end.
Proof.
  unfold history_entry, entry_of, preview, and_longer_than_200.
  cbv beta iota delta [bind query ret getattr raise].
  destruct (AnalysisResult_resume (database (world s)) item) as [r|];
    [ | reflexivity ].
  destruct (AnalysisResult_job (database (world s)) item) as [j|];
    cbv beta iota delta [option_map];
    repeat match goal with
           | |- context [(200 <? ?n)%nat] => destruct (200 <? n)%nat
           end; reflexivity.
Qed.

Lemma for_each_append_normal_form (rows : list AnalysisResult.t)
  (history : list HistoryEntry.t) (s : Session) :
  for_each_append rows history s
  = match entries_of (database (world s)) rows with
    | Ok es => (Value (history ++ es), s)
    | Raise e => (Raised e, s)
    end.
Proof.
  revert history. induction rows as [|item rest IH]; intros history; cbn.
  - now rewrite app_nil_r.
  - unfold bind. rewrite history_entry_normal_form.
    destruct (AnalysisResult_resume (database (world s)) item) as [r|];
      [ | reflexivity ].
    rewrite IH.
    destruct (entries_of (database (world s)) rest); cbn;
      [ now rewrite <- app_assoc | reflexivity ].
Qed.

Lemma get_history_normal_form (args_limit : QueryArg) (w : World) :
  get_history args_limit w = get_history_nf args_limit w.
Proof.
  unfold get_history, get_history_nf, route.
  cbv beta iota delta [bind query call ret raise return_ jsonify].
  cbn [get_db world database].
  destruct (limit _ _) as [rows|e]; [ | reflexivity ].
  rewrite for_each_append_normal_form. cbn [get_db world database].
  destruct (entries_of (database w) rows); reflexivity.
Qed.

(** Every entry of a history that was built shows its row, whose resume is
    there. *)
Lemma entries_of_Ok (d : Database) (rows : list AnalysisResult.t)
  (es : list HistoryEntry.t) :
  entries_of d rows = Ok es ->
  Forall2 (fun e item =>
             exists r, AnalysisResult_resume d item = Some r /\
                       e = entry_of item r (AnalysisResult_job d item))
          es rows.
Proof.
  revert es. induction rows as [|item rest IH]; cbn; intros es H.
  - inversion H. constructor.
  - destruct (AnalysisResult_resume d item) as [r|] eqn:Hr; [ | discriminate ].
    apply and_then_Ok in H as (es' & Hes' & H). inversion H; subst.
    constructor; [ now exists r | now apply IH ].
Qed.


Lemma limit_Ok {A : Type} (n : Z) (l rows : list A) :
  limit n l = Ok rows -> 0 <= n /\ rows = firstn (Z.to_nat n) l.
Proof.
  unfold limit. destruct (Z.ltb_spec n 0) as [Hneg|Hpos]; [ discriminate | ].
  intros Heq; inversion Heq. split; [ lia | reflexivity ].
Qed.

Lemma entry_of_shows (item : AnalysisResult.t) (r : Resume.t)
  (j : option Job.t) :
  shows (entry_of item r j) item.
Proof. now repeat split. Qed.

(** The shape of a history that was returned. *)
Lemma get_history_returns (args_limit : QueryArg) (w : World)
  (history : list HistoryEntry.t) (st : Z) (w' : World) :
  get_history args_limit w = ((HistoryArray history, st), w') ->
  st = 200 /\ w' = w /\
  0 <= get_int args_limit 20 /\
  entries_of (database w)
    (firstn (Z.to_nat (get_int args_limit 20))
       (order_by_created_at_desc (analysis_results (database w))))
  = Ok history.
Proof.
  rewrite get_history_normal_form. unfold get_history_nf.
  destruct (limit _ _) as [rows|e] eqn:Hlim; [ | discriminate ].
  apply limit_Ok in Hlim as [Hn ->].
  destruct (entries_of _ _) as [es|e]; [ | discriminate ].
  intros H; inversion H; subst. now repeat split.
Qed.

(** C6. A history that is returned for the limit n (20 when the parameter
    is absent or is no integer) has at most n entries: they show, in order,
    the first n rows (all of them when there are fewer) of the
    AnalysisResult table ordered by creation time, newest first, so that no
    row left out is newer than a row shown.  The request writes nothing. *)
Theorem history_is_the_newest_rows_up_to_the_limit
  (args_limit : QueryArg) (w : World) (history : list HistoryEntry.t)
  (st : Z) (w' : World) :
  get_history args_limit w = ((HistoryArray history, st), w') ->
  let n := get_int args_limit 20 in
  get_int Absent 20 = 20 /\
  Z.of_nat (length history) <= n /\
  w' = w /\
  exists shown left_out,
    Permutation (shown ++ left_out) (analysis_results (database w)) /\
    Forall2 shows history shown /\
    length shown
    = Nat.min (Z.to_nat n) (length (analysis_results (database w))) /\
    StronglySorted no_older shown /\
    (forall a b, In a shown -> In b left_out -> no_older a b).
Proof.
  intros Hrun. apply get_history_returns in Hrun as (_ & -> & Hn & Hes).
  cbv zeta. set (n := get_int args_limit 20) in *.
  set (sorted := order_by_created_at_desc (analysis_results (database w)))
    in *.
  apply entries_of_Ok in Hes.
  assert (Hlen : length history = length (firstn (Z.to_nat n) sorted))
    by (eapply Forall2_length; eassumption).
  rewrite length_firstn in Hlen.
  assert (Hsize : length sorted = length (analysis_results (database w)))
    by (apply Permutation_length, order_by_permutation).
  split; [ reflexivity | ]. split; [ lia | ]. split; [ reflexivity | ].
  exists (firstn (Z.to_nat n) sorted), (skipn (Z.to_nat n) sorted).
  rewrite firstn_skipn.
  split; [ apply order_by_permutation | ].
  split.
  { eapply Forall2_impl; [ | exact Hes ].
    intros e item (r & _ & ->). apply entry_of_shows. }
  split; [ now rewrite length_firstn, Hsize | ].
  apply strongly_sorted_app. rewrite firstn_skipn. apply order_by_sorted.
Qed.

Lemma history_limit_witness :
  get_history (AnInt 1) Example.world2
  = ((HistoryArray Example.history1, 200), Example.world2) /\
  Z.of_nat (length Example.history1) <= get_int (AnInt 1) 20.
Proof.
  split; [ reflexivity | ].
  apply (history_is_the_newest_rows_up_to_the_limit
           (AnInt 1) Example.world2 Example.history1 200 Example.world2).
  reflexivity.
Defined.

Lemma in_firstn {A : Type} (n : nat) (l : list A) (x : A) :
  In x (firstn n l) -> In x l.
Proof.
  revert l. induction n as [|n IH]; intros [|y l]; cbn; try easy.
  intros [->|H]; [ now left | right; now apply IH ].
Qed.

(** C7. In every entry of a returned history, resume_preview is the preview
    of the text of the row's resume, and jd_preview is the preview of the
    job description when the row has a job (null when it has none), where
    the preview of a text longer than 200 characters is its first 200
    characters followed by "..." (203 characters at most) and the preview
    of any other text is the text itself. *)
Theorem history_previews_truncate_at_200
  (args_limit : QueryArg) (w : World) (history : list HistoryEntry.t)
  (st : Z) (w' : World) :
  get_history args_limit w = ((HistoryArray history, st), w') ->
  Forall (fun e =>
            exists item r,
              In item (analysis_results (database w)) /\
              shows e item /\
              AnalysisResult_resume (database w) item = Some r /\
              is_preview_of (Resume.resume_text r)
                (HistoryEntry.resume_preview e) /\
              match AnalysisResult_job (database w) item with
              | Some j =>
                  exists p,
                    HistoryEntry.jd_preview e = Some p /\
                    is_preview_of (Job.job_description j) p
              | None => HistoryEntry.jd_preview e = None
              end)
         history.
Proof.
  intros Hrun. apply get_history_returns in Hrun as (_ & _ & _ & Hes).
  apply entries_of_Ok in Hes.
  assert (Hrows : forall item,
             In item (firstn (Z.to_nat (get_int args_limit 20))
                        (order_by_created_at_desc
                           (analysis_results (database w)))) ->
             In item (analysis_results (database w))).
  { intros item Hin. apply in_firstn in Hin.
    eapply Permutation_in; [ apply order_by_permutation | exact Hin ]. }
  induction Hes as [|e item es rows (r & Hr & ->) _ IH]; constructor.
  - exists item, r.
    split; [ apply Hrows; now left | ].
    split; [ apply entry_of_shows | ].
    split; [ exact Hr | ].
    split; [ apply preview_is_preview_of | ].
    destruct (AnalysisResult_job (database w) item) as [j|]; cbn;
      [ | reflexivity ].
    eexists. split; [ reflexivity | apply preview_is_preview_of ].
  - apply IH. intros x Hx. apply Hrows. now right.
Qed.

Lemma history_previews_witness :
  Forall (fun e =>
            exists item r,
              In item (analysis_results (database Example.long_world)) /\
              shows e item /\
              AnalysisResult_resume (database Example.long_world) item
              = Some r /\
              is_preview_of (Resume.resume_text r)
                (HistoryEntry.resume_preview e) /\
              match AnalysisResult_job (database Example.long_world) item with
              | Some j =>
                  exists p,
                    HistoryEntry.jd_preview e = Some p /\
                    is_preview_of (Job.job_description j) p
              | None => HistoryEntry.jd_preview e = None
              end)
         Example.long_history.
Proof.
  apply (history_previews_truncate_at_200
           Absent Example.long_world Example.long_history 200
           Example.long_world).
  vm_compute. reflexivity.
Defined.

(** The preview of a resume of 201 characters: 200 of them and "...". *)
Example long_resume_preview :
  String.length Example.long_text = 201%nat /\
  get_history Absent Example.long_world
  = ((HistoryArray Example.long_history, 200), Example.long_world) /\
  map (fun e => String.length (HistoryEntry.resume_preview e))
    Example.long_history = [203%nat].
Proof. vm_compute. repeat split. Qed.



(* ===================================================================== *)
(** * Properties of the fetch routes *)
(* ===================================================================== *)

Lemma find_none_iff {A : Type} (p : A -> bool) (l : list A) :
  find p l = None <-> forall x, In x l -> p x = false.
Proof.
  split.
  - apply find_none.
  - induction l as [|a l IH]; cbn; intros H; [ reflexivity | ].
    rewrite (H a (or_introl eq_refl)). apply IH.
    intros x Hx. apply H. now right.
Qed.

Lemma opt_Z_eqb_false (o : option Z) (k : Z) :
  o <> Some k -> opt_Z_eqb o (Some k) = false.
Proof.
  destruct o as [x|]; cbn; [ | reflexivity ].
  intros H. apply Z.eqb_neq. congruence.
Qed.

Lemma opt_Z_eqb_false_inv (o : option Z) (k : Z) :
  opt_Z_eqb o (Some k) = false -> o <> Some k.
Proof.
  intros H ->. cbn in H. now rewrite Z.eqb_refl in H.
Qed.

(** C8. An identifier that names no stored Resume is answered by
    [GET /resume/<id>] with 404 "Resume not found", and one that names no
    stored AnalysisResult by [GET /analysis/<id>] with 404 "Analysis result
    not found": never with 500, and with the store and the console as they
    were found. *)
Theorem unknown_id_is_not_found (k : Z) (w : World) :
  ((forall r, In r (resumes (database w)) -> Resume.id r <> Some k) ->
   get_resume k w = ((ErrorObject "Resume not found", 404), w)) /\
  ((forall a, In a (analysis_results (database w)) ->
              AnalysisResult.id a <> Some k) ->
   get_analysis k w = ((ErrorObject "Analysis result not found", 404), w)).
Proof.
  split; intros Hnone.
  - unfold get_resume, route, bind, query. cbn [get_db world database].
    unfold first_resume.
    rewrite (proj2 (find_none_iff _ _));
      [ reflexivity | intros r Hr; now apply opt_Z_eqb_false, Hnone ].
  - unfold get_analysis, route, bind, query. cbn [get_db world database].
    unfold first_analysis_result.
    rewrite (proj2 (find_none_iff _ _));
      [ reflexivity | intros a Ha; now apply opt_Z_eqb_false, Hnone ].
Qed.

Lemma unknown_id_witness :
  get_resume 5 Example.world2
  = ((ErrorObject "Resume not found", 404), Example.world2) /\
  get_analysis 5 Example.world2
  = ((ErrorObject "Analysis result not found", 404), Example.world2).
Proof.
  split.
  - apply (proj1 (unknown_id_is_not_found 5 Example.world2)).
    intros r Hr. apply opt_Z_eqb_false_inv.
    apply (find_none (fun x => opt_Z_eqb (Resume.id x) (Some 5))
             (resumes (database Example.world2)) eq_refl r Hr).
  - apply (proj2 (unknown_id_is_not_found 5 Example.world2)).
    intros a Ha. apply opt_Z_eqb_false_inv.
    apply (find_none (fun x => opt_Z_eqb (AnalysisResult.id x) (Some 5))
             (analysis_results (database Example.world2)) eq_refl a Ha).
Defined.

(** A stored identifier is answered with 200 and the stored text. *)
Example get_resume_found :
  get_resume 2 Example.world2
  = ((ResumeObject
        (ResumeJson.Build (Some 2) "Built scalable systems"
           (Some (isoformat 1003)) (Some (isoformat 1003))), 200),
     Example.world2).
Proof. vm_compute. reflexivity. Qed.

(* ===================================================================== *)
(** * Further properties *)
(* ===================================================================== *)

(** X1. What fails before the first insert writes nothing: a 400 answer
    leaves the world as it was, and an exception raised by the parser on an
    accepted upload, or by one of the analyses on the resolved text, is
    answered 500 with its message and leaves the database as it was (every
    insert comes after the last call to a collaborator). *)
Theorem early_failure_writes_nothing
  (E : Env) (request : Request) (w : World) :
  (status_code (fst (analyze_resume E request w)) = 400 ->
   snd (analyze_resume E request w) = w) /\
  (forall file e,
     accepted_file E request = Some file ->
     extract_text_from_bytes E (read file) = Raise e ->
     fst (analyze_resume E request w) = (ErrorObject (str e), 500) /\
     database (snd (analyze_resume E request w)) = database w) /\
  (forall resume_text e,
     resolve_resume_text E request = Resolved resume_text ->
     run_analyses E resume_text
       (get_default (form_job_description request) "") = Raise e ->
     fst (analyze_resume E request w) = (ErrorObject (str e), 500) /\
     database (snd (analyze_resume E request w)) = database w).
Proof.
  rewrite analyze_resume_normal_form. unfold analyze_resume_nf.
  split; [ | split ].
  - destruct (resolve_resume_text E request) as [r|e|resume_text];
      [ reflexivity | discriminate | ].
    destruct (run_analyses E resume_text _); [ | discriminate ].
    unfold store_resume, store_job, store_analysis.
    destruct (str_bool _); cbn; discriminate.
  - intros file e Hfile Hraise.
    assert (Hres : resolve_resume_text E request = Failed e).
    { unfold resolve_resume_text, accepted_file in *.
      destruct (files_resume_file request) as [f|]; [ | discriminate ].
      destruct (file_and_allowed E f); [ | discriminate ].
      injection Hfile as ->. now rewrite Hraise. }
    rewrite Hres. now split.
  - intros resume_text e -> ->. now split.
Qed.

Lemma early_failure_witness :
  fst (analyze_resume Sample.failing_env Example.text_request Example.world0)
  = (ErrorObject (str (Exception "checker unavailable")), 500) /\
  database (snd (analyze_resume Sample.failing_env Example.text_request
                   Example.world0))
  = database Example.world0.
Proof.
  apply (proj2 (proj2 (early_failure_writes_nothing
                         Sample.failing_env Example.text_request
                         Example.world0))
           "Built scalable systems" (Exception "checker unavailable"));
    reflexivity.
Defined.

(** X2. The power_verbs of a results response come from the resume text
    that was stored: findings is the first ten entries (so at most ten) of
    what find_weak_verbs returned for that text, stats is what
    get_power_verb_stats returned for it, and the persisted AnalysisResult
    holds the same object. *)
Theorem power_verb_findings_are_the_first_ten
  (E : Env) (request : Request) (w : World) (res : Results.t) (st : Z)
  (w' : World) :
  analyze_resume E request w = ((ResultsObject res, st), w') ->
  exists r weak_verbs verb_stats a,
    resumes (database w') = resumes (database w) ++ [r] /\
    find_weak_verbs E (Resume.resume_text r) = Ok weak_verbs /\
    get_power_verb_stats E (Resume.resume_text r) = Ok verb_stats /\
    Results.power_verbs res
    = {| findings := firstn 10 weak_verbs; stats := verb_stats |} /\
    (length (findings (Results.power_verbs res)) <= 10)%nat /\
    analysis_results (database w') = analysis_results (database w) ++ [a] /\
    AnalysisResult.power_verb_suggestions a = Results.power_verbs res.
Proof.
  rewrite analyze_resume_normal_form. unfold analyze_resume_nf.
  destruct (resolve_resume_text E request) as [r|e|resume_text] eqn:Hres.
  - destruct (resolve_rejects_with_an_error _ _ _ Hres) as [[msg Hmsg] _].
    intros H. injection H as -> _. discriminate Hmsg.
  - discriminate.
  - destruct (run_analyses E resume_text _) as [an|e] eqn:Han;
      [ | discriminate ].
    unfold store_resume, store_job, store_analysis.
    unfold run_analyses in Han. invert_and_then Han.
    injection Han as <-.
    match goal with
    | Hverbs : find_weak_verbs E resume_text = Ok ?v,
      Hstats : get_power_verb_stats E resume_text = Ok ?t |- _ =>
        assert (Hlen : (length (firstn 10 v) <= 10)%nat)
          by apply firstn_le_length;
        destruct (str_bool _); cbn -[firstn]; intros H;
        injection H as <- _ <-; cbn -[firstn];
        (eexists; exists v, t; eexists;
         split; [ reflexivity | ];
         split; [ exact Hverbs | ];
         split; [ exact Hstats | ];
         split; [ reflexivity | ];
         split; [ exact Hlen | ];
         split; reflexivity)
    end.
Qed.

Lemma power_verb_findings_witness :
  exists r weak_verbs verb_stats a,
    resumes (database Example.world1)
    = resumes (database Example.world0) ++ [r] /\
    find_weak_verbs Example.env (Resume.resume_text r) = Ok weak_verbs /\
    get_power_verb_stats Example.env (Resume.resume_text r)
    = Ok verb_stats /\
    Results.power_verbs Example.results1
    = {| findings := firstn 10 weak_verbs; stats := verb_stats |} /\
    (length (findings (Results.power_verbs Example.results1)) <= 10)%nat /\
    analysis_results (database Example.world1)
    = analysis_results (database Example.world0) ++ [a] /\
    AnalysisResult.power_verb_suggestions a
    = Results.power_verbs Example.results1.
Proof.
  apply (power_verb_findings_are_the_first_ten
           Example.env Example.text_request Example.world0
           Example.results1 200 Example.world1).
  vm_compute. reflexivity.
Defined.

(** X3. When every stored analysis has its resume, a history is returned
    for every limit from 0 to the largest count the store takes; it has one
    entry per selected row: the limit, or the number of stored analyses
    when there are fewer. *)
Theorem history_is_returned
  (args_limit : QueryArg) (w : World) :
  0 <= get_int args_limit 20 <= bigint_max ->
  (forall item,
     In item (analysis_results (database w)) ->
     AnalysisResult_resume (database w) item <> None) ->
  exists history,
    get_history args_limit w = ((HistoryArray history, 200), w) /\
    length history
    = Nat.min (Z.to_nat (get_int args_limit 20))
        (length (analysis_results (database w))).
Proof.
  intros [Hn _] Hall. rewrite get_history_normal_form.
  unfold get_history_nf, limit.
  destruct (Z.ltb_spec (get_int args_limit 20) 0); [ lia | ].
  set (rows := firstn _ _) in *.
  assert (Hrows : forall item, In item rows ->
                    AnalysisResult_resume (database w) item <> None).
  { intros item Hin. apply Hall. unfold rows in Hin.
    apply in_firstn in Hin.
    exact (Permutation_in _ (order_by_permutation _) Hin). }
  assert (Hes : exists es, entries_of (database w) rows = Ok es).
  { clearbody rows. clear Hall. induction rows as [|item rest IH]; cbn.
    - now exists [].
    - destruct (AnalysisResult_resume (database w) item) as [r|] eqn:Hr;
        [ | now contradiction (Hrows item (or_introl eq_refl)) ].
      destruct IH as [es ->];
        [ intros x Hx; apply Hrows; now right | ].
      cbn. eauto. }
  destruct Hes as [es Hes]. rewrite Hes. exists es.
  split; [ reflexivity | ].
  apply entries_of_Ok, Forall2_length in Hes. rewrite Hes.
  unfold rows. rewrite length_firstn.
  now rewrite (Permutation_length (order_by_permutation _)).
Qed.

Lemma history_is_returned_witness :
  exists history,
    get_history (AnInt 1) Example.world2
    = ((HistoryArray history, 200), Example.world2) /\
    length history
    = Nat.min (Z.to_nat (get_int (AnInt 1) 20))
        (length (analysis_results (database Example.world2))).
Proof.
  apply (history_is_returned (AnInt 1) Example.world2).
  - split; discriminate.
  - apply Forall_forall. vm_compute. repeat constructor; discriminate.
Defined.

(** X4. [GET /analysis/<id>] on a stored identifier returns the row with
    the whole text of its resume and of its job description (null when the
    row has none), not a preview, and writes nothing. *)
Theorem get_analysis_returns_the_full_texts
  (k : Z) (w : World) (item : AnalysisResult.t) :
  first_analysis_result k (database w) = Some item ->
  exists body,
    get_analysis k w = ((AnalysisObject body, 200), w) /\
    AnalysisJson.id body = AnalysisResult.id item /\
    AnalysisJson.resume_text body
    = option_map Resume.resume_text
        (AnalysisResult_resume (database w) item) /\
    AnalysisJson.job_description body
    = option_map Job.job_description
        (AnalysisResult_job (database w) item).
Proof.
  intros Hitem. unfold get_analysis, route, bind, query.
  cbn [get_db world database]. rewrite Hitem.
  eexists. cbn. repeat split.
Qed.

Lemma get_analysis_witness :
  exists body,
    get_analysis 1 Example.world2
    = ((AnalysisObject body, 200), Example.world2) /\
    AnalysisJson.id body = AnalysisResult.id Example.analysis1 /\
    AnalysisJson.resume_text body
    = option_map Resume.resume_text
        (AnalysisResult_resume (database Example.world2) Example.analysis1) /\
    AnalysisJson.job_description body
    = option_map Job.job_description
        (AnalysisResult_job (database Example.world2) Example.analysis1).
Proof.
  apply (get_analysis_returns_the_full_texts
           1 Example.world2 Example.analysis1).
  vm_compute. reflexivity.
Defined.

(* ===================================================================== *)
(** * The extension of a file name *)
(* ===================================================================== *)

Lemma rsplit1_without_sep (sep : ascii) (s : string) :
  contains sep s = false -> rsplit1 sep s = [s].
Proof.
  induction s as [|a s IH]; cbn; [ reflexivity | ].
  intros H. apply orb_false_iff in H as [Ha Hs].
  rewrite (IH Hs), Ha. reflexivity.
Qed.

Lemma rsplit1_at_last_sep (sep : ascii) (base ext : string) :
  contains sep ext = false ->
  rsplit1 sep (base ++ String sep ext) = [base; ext].
Proof.
  intros Hext. induction base as [|a base IH]; cbn.
  - rewrite (rsplit1_without_sep _ _ Hext), Ascii.eqb_refl. reflexivity.
  - cbn in IH. rewrite IH. reflexivity.
Qed.

Lemma contains_append (sep : ascii) (s1 s2 : string) :
  contains sep (s1 ++ s2) = contains sep s1 || contains sep s2.
Proof.
  induction s1 as [|a s1 IH]; cbn; [ reflexivity | ].
  now rewrite IH, orb_assoc.
Qed.

(** A text that holds the separator splits at its last occurrence. *)
Lemma split_at_last_sep (sep : ascii) (s : string) :
  contains sep s = true ->
  exists base ext,
    s = (base ++ String sep ext)%string /\ contains sep ext = false.
Proof.
  induction s as [|a s IH]; cbn; [ discriminate | ].
  destruct (contains sep s) eqn:Hs.
  - intros _. destruct (IH eq_refl) as (base & ext & -> & Hext).
    exists (String a base), ext. split; [ reflexivity | exact Hext ].
  - rewrite orb_false_r. intros Ha. apply Ascii.eqb_eq in Ha as ->.
    exists EmptyString, s. split; [ reflexivity | exact Hs ].
Qed.

(** X5. A file name is allowed exactly when it reads base.ext, where ext
    holds no further dot (it follows the last dot of the name) and ext in
    lower case is one of the allowed extensions.  A name without a dot is
    never allowed, and only the letters' case of the extension is
    forgiven. *)
Theorem allowed_file_reads_the_last_extension (E : Env) (name : string) :
  allowed_file E name = true <->
  exists base ext,
    name = (base ++ "." ++ ext)%string /\
    contains "." ext = false /\
    str_in (lower ext) (ALLOWED_EXTENSIONS E) = true.
Proof.
  unfold allowed_file. split.
  - intros H. apply andb_true_iff in H as [Hdot Hin].
    destruct (split_at_last_sep _ _ Hdot) as (base & ext & -> & Hext).
    rewrite (rsplit1_at_last_sep _ base _ Hext) in Hin.
    exists base, ext. now repeat split.
  - intros (base & ext & -> & Hext & Hin).
    change (base ++ "." ++ ext)%string with (base ++ String "." ext)%string.
    rewrite contains_append, (rsplit1_at_last_sep _ base _ Hext).
    cbn. rewrite orb_true_r. exact Hin.
Qed.

Lemma allowed_file_witness :
  allowed_file Example.env "resume.final.PDF" = true.
Proof.
  apply (proj2 (allowed_file_reads_the_last_extension
                  Example.env "resume.final.PDF")).
  exists "resume.final", "PDF". repeat split.
Defined.

(** The double extension that hides a type is judged by its last part. *)
Example allowed_file_edge_cases :
  allowed_file Example.env "cv.pdf.exe" = false /\
  allowed_file Example.env "pdf" = false /\
  allowed_file Example.env "cv." = false /\
  allowed_file Example.env ".pdf" = true.
Proof. repeat split. Qed.

(* ===================================================================== *)
(** * More on [POST /analyze] *)
(* ===================================================================== *)

(** X6. An upload that is not accepted (it has no file name, or its
    extension is not allowed) is ignored altogether: its bytes are never
    handed to the parser, and the request is served exactly as the same
    request without the upload. *)
Theorem rejected_upload_is_ignored
  (E : Env) (request : Request) (w : World) (file : FileStorage) :
  files_resume_file request = Some file ->
  file_and_allowed E file = false ->
  analyze_resume E request w = analyze_resume E (without_file request) w.
Proof.
  intros Hfile Hacc. rewrite !analyze_resume_normal_form.
  unfold analyze_resume_nf, resolve_resume_text.
  cbn [without_file files_resume_file form_resume_text form_job_description].
  now rewrite Hfile, Hacc.
Qed.

Lemma rejected_upload_witness :
  analyze_resume Example.env Sample.docx_request Example.world0
  = analyze_resume Example.env (without_file Sample.docx_request)
      Example.world0.
Proof.
  apply (rejected_upload_is_ignored
           Example.env Sample.docx_request Example.world0 Sample.docx);
    reflexivity.
Defined.

(** X7. The route answers 200, 400 or 500 and logs exactly its 500s: a
    200 carries the results and prints nothing; a 400 carries one of the
    two messages and leaves the world as it was; a 500 carries an error
    text, and the console gets one line, "ERROR in /analyze: " followed by
    that text. *)
Theorem analyze_resume_has_three_endings
  (E : Env) (request : Request) (w : World) :
  let resp := fst (analyze_resume E request w) in
  let w' := snd (analyze_resume E request w) in
  (status_code resp = 200 /\
   (exists res, fst resp = ResultsObject res) /\
   stdout w' = stdout w) \/
  (status_code resp = 400 /\
   (fst resp = ErrorObject "Could not read PDF text" \/
    fst resp = ErrorObject "No resume provided") /\
   w' = w) \/
  (status_code resp = 500 /\
   exists msg,
     fst resp = ErrorObject msg /\
     stdout w' = stdout w ++ [("ERROR in /analyze: " ++ msg)%string]).
Proof.
  cbv zeta. rewrite analyze_resume_normal_form. unfold analyze_resume_nf.
  destruct (resolve_resume_text E request) as [r|e|resume_text] eqn:Hres.
  - right; left.
    unfold resolve_resume_text in Hres.
    repeat match type of Hres with
           | context [match ?x with _ => _ end] => destruct x
           end; inversion Hres; cbn; auto.
  - right; right. split; [ reflexivity | ]. exists (str e). now split.
  - destruct (run_analyses E resume_text _) as [an|e].
    + left. unfold store_resume, store_job, store_analysis.
      destruct (str_bool _); cbn; (split; [ reflexivity | ]);
        (split; [ eexists | ]); reflexivity.
    + right; right. split; [ reflexivity | ]. exists (str e). now split.
Qed.

(** X8. What a 200 response reports is what was stored: its resume_id and
    analysis_id are the keys of the two new rows, the AnalysisResult row
    holds the same foreign keys, scores and reports, and each score in the
    response is the one inside the report next to it. *)
Theorem response_agrees_with_the_stored_rows
  (E : Env) (request : Request) (w : World) (res : Results.t) (st : Z)
  (w' : World) :
  analyze_resume E request w = ((ResultsObject res, st), w') ->
  (exists r a,
      resumes (database w') = resumes (database w) ++ [r] /\
      analysis_results (database w')
      = analysis_results (database w) ++ [a] /\
      Results.resume_id res = Resume.id r /\
      Results.analysis_id res = AnalysisResult.id a /\
      AnalysisResult.resume_id a = Results.resume_id res /\
      AnalysisResult.job_id a = Results.job_id res /\
      AnalysisResult.match_score a = Results.match_score res /\
      AnalysisResult.match_details a = Results.match_details res /\
      AnalysisResult.ats_score a = Results.ats_score res /\
      AnalysisResult.ats_flags a = Results.ats_report res /\
      AnalysisResult.quality_score a = Results.quality_score res) /\
  Results.match_score res
  = option_map mr_match_score (Results.match_details res) /\
  Results.ats_score res = ar_ats_score (Results.ats_report res) /\
  Results.quality_score res = qr_quality_score (Results.quality_details res).
Proof.
  rewrite analyze_resume_normal_form. unfold analyze_resume_nf.
  destruct (resolve_resume_text E request) as [r|e|resume_text] eqn:Hres.
  - destruct (resolve_rejects_with_an_error _ _ _ Hres) as [[msg Hmsg] _].
    intros H. injection H as -> _. discriminate Hmsg.
  - discriminate.
  - destruct (run_analyses E resume_text _) as [an|e]; [ | discriminate ].
    unfold store_resume, store_job, store_analysis.
    destruct (str_bool _); cbn; intros H; injection H as <- _ <-; cbn;
      (split; [ do 2 eexists; now repeat split | now repeat split ]).
Qed.

Lemma response_agrees_witness :
  (exists r a,
      resumes (database Example.world1)
      = resumes (database Example.world0) ++ [r] /\
      analysis_results (database Example.world1)
      = analysis_results (database Example.world0) ++ [a] /\
      Results.resume_id Example.results1 = Resume.id r /\
      Results.analysis_id Example.results1 = AnalysisResult.id a /\
      AnalysisResult.resume_id a = Results.resume_id Example.results1 /\
      AnalysisResult.job_id a = Results.job_id Example.results1 /\
      AnalysisResult.match_score a = Results.match_score Example.results1 /\
      AnalysisResult.match_details a
      = Results.match_details Example.results1 /\
      AnalysisResult.ats_score a = Results.ats_score Example.results1 /\
      AnalysisResult.ats_flags a = Results.ats_report Example.results1 /\
      AnalysisResult.quality_score a
      = Results.quality_score Example.results1) /\
  Results.match_score Example.results1
  = option_map mr_match_score (Results.match_details Example.results1) /\
  Results.ats_score Example.results1
  = ar_ats_score (Results.ats_report Example.results1) /\
  Results.quality_score Example.results1
  = qr_quality_score (Results.quality_details Example.results1).
Proof.
  apply (response_agrees_with_the_stored_rows
           Example.env Example.text_request Example.world0
           Example.results1 200 Example.world1).
  vm_compute. reflexivity.
Defined.

(** X9. The text stored with a successful request is never empty, and it
    is the text the parser read from the upload when an upload was
    accepted, the resume_text field otherwise: an accepted upload wins
    over the field. *)
Theorem stored_resume_text_is_the_resolved_text
  (E : Env) (request : Request) (w : World) (resp : Response) (w' : World) :
  analyze_resume E request w = (resp, w') ->
  status_code resp = 200 ->
  exists r,
    resumes (database w') = resumes (database w) ++ [r] /\
    Resume.resume_text r <> "" /\
    match accepted_file E request with
    | Some file =>
        extract_text_from_bytes E (read file)
        = Ok (Some (Resume.resume_text r))
    | None => form_resume_text request = Some (Resume.resume_text r)
    end.
Proof.
  intros Hrun H200.
  destruct (analyze_resume_200 _ _ _ _ _ Hrun H200)
    as (resume_text & an & Hres & _ & Hshape).
  cbv zeta in Hshape. unfold store_resume, store_job, store_analysis in Hshape.
  assert (Hrows : resumes (database w')
                  = resumes (database w)
                    ++ [Resume.Build (Some (resumes_id_seq (database w) + 1))
                          resume_text (Some (clock (database w)))
                          (Some (clock (database w)))]).
  { destruct (str_bool _); cbn in Hshape; destruct Hshape as [_ ->];
      reflexivity. }
  eexists. split; [ exact Hrows | ]. cbn [Resume.resume_text].
  unfold resolve_resume_text, accepted_file in *.
  destruct (files_resume_file request) as [file|].
  - destruct (file_and_allowed E file).
    + destruct (extract_text_from_bytes E (read file)) as [[[|c t]|]|];
        try discriminate Hres.
      injection Hres as <-. split; [ discriminate | reflexivity ].
    + destruct (form_resume_text request) as [[|c t]|];
        try discriminate Hres.
      injection Hres as <-. split; [ discriminate | reflexivity ].
  - destruct (form_resume_text request) as [[|c t]|];
      try discriminate Hres.
    injection Hres as <-. split; [ discriminate | reflexivity ].
Qed.

Lemma stored_resume_text_witness :
  exists r,
    resumes (database (snd (analyze_resume Example.env Sample.pdf_request
                              Example.world0)))
    = resumes (database Example.world0) ++ [r] /\
    Resume.resume_text r <> "" /\
    match accepted_file Example.env Sample.pdf_request with
    | Some file =>
        extract_text_from_bytes Example.env (read file)
        = Ok (Some (Resume.resume_text r))
    | None => form_resume_text Sample.pdf_request = Some (Resume.resume_text r)
    end.
Proof.
  apply (stored_resume_text_is_the_resolved_text
           Example.env Sample.pdf_request Example.world0
           (fst (analyze_resume Example.env Sample.pdf_request
                   Example.world0))
           (snd (analyze_resume Example.env Sample.pdf_request
                   Example.world0))).
  - apply surjective_pairing.
  - reflexivity.
Defined.

(** A collaborator that is down: 500 with its message, logged, nothing
    stored. *)
Example failing_checker :
  analyze_resume Sample.failing_env Example.text_request Example.world0
  = ((ErrorObject "checker unavailable", 500),
     {| database := Example.empty_db;
        stdout := ["ERROR in /analyze: checker unavailable"] |}).
Proof. reflexivity. Qed.

(* ===================================================================== *)
(** * The read-only routes *)
(* ===================================================================== *)

(** X10. The three GET routes never write: whatever they are asked and
    whatever they answer (200, 404 or 500), the database is the one they
    found; only a 500 leaves a trace, on the console. *)
Theorem get_routes_never_write
  (args_limit : QueryArg) (k : Z) (w : World) :
  database (snd (get_history args_limit w)) = database w /\
  database (snd (get_resume k w)) = database w /\
  database (snd (get_analysis k w)) = database w /\
  (status_code (fst (get_history args_limit w)) <> 500 ->
   snd (get_history args_limit w) = w) /\
  snd (get_resume k w) = w /\
  snd (get_analysis k w) = w.
Proof.
  assert (Hh : database (snd (get_history args_limit w)) = database w /\
               (status_code (fst (get_history args_limit w)) <> 500 ->
                snd (get_history args_limit w) = w)).
  { rewrite get_history_normal_form. unfold get_history_nf.
    destruct (limit _ _) as [rows|e];
      [ destruct (entries_of _ _) | ]; cbn; (split; [ reflexivity | ]);
      intros H; try reflexivity; now contradiction H. }
  assert (Hr : snd (get_resume k w) = w).
  { unfold get_resume, route, bind, query. cbn [get_db world database].
    destruct (first_resume k (database w)); reflexivity. }
  assert (Ha : snd (get_analysis k w) = w).
  { unfold get_analysis, route, bind, query. cbn [get_db world database].
    destruct (first_analysis_result k (database w)); reflexivity. }
  rewrite Hr, Ha. now repeat split.
Qed.

(* ===================================================================== *)
(** * The store stays consistent *)
(* ===================================================================== *)

Lemma find_app {A : Type} (p : A -> bool) (l1 l2 : list A) :
  find p (l1 ++ l2)
  = match find p l1 with
    | Some x => Some x
    | None => find p l2
    end.
Proof.
  induction l1 as [|a l1 IH]; cbn; [ reflexivity | ].
  destruct (p a); [ reflexivity | exact IH ].
Qed.

Lemma find_is_some_app {A : Type} (p : A -> bool) (l1 l2 : list A) :
  is_some (find p l1) = true -> is_some (find p (l1 ++ l2)) = true.
Proof. rewrite find_app. now destruct (find p l1). Qed.

Lemma id_at_most_mono (seq seq' : Z) (id : option Z) :
  seq <= seq' -> id_at_most seq id = true -> id_at_most seq' id = true.
Proof.
  destruct id as [k|]; cbn; [ | easy ].
  rewrite !Z.leb_le. lia.
Qed.

Lemma created_before_mono (now now' : datetime) (t : option datetime) :
  now <= now' -> created_before now t = true -> created_before now' t = true.
Proof.
  destruct t as [t|]; cbn; [ | easy ].
  rewrite !Z.ltb_lt. lia.
Qed.

(** A stored key below the next one of the sequence is not the next one. *)
Lemma find_fresh_id {A : Type} (id : A -> option Z) (seq : Z) (l : list A) :
  forallb (fun x => id_at_most seq (id x)) l = true ->
  find (fun x => opt_Z_eqb (id x) (Some (seq + 1))) l = None.
Proof.
  intros H. apply find_none_iff. intros x Hx.
  apply (proj1 (forallb_forall _ _) H) in Hx.
  destruct (id x) as [k|]; cbn in *; [ | reflexivity ].
  apply Z.leb_le in Hx. apply Z.eqb_neq. lia.
Qed.

Lemma consistent_row_extends (d d' : Database) (a : AnalysisResult.t) :
  extends d d' ->
  id_at_most (analysis_results_id_seq d) (AnalysisResult.id a) &&
  created_before (clock d) (AnalysisResult.created_at a) &&
  is_some (AnalysisResult_resume d a) &&
  (negb (is_some (AnalysisResult.job_id a))
   || is_some (AnalysisResult_job d a)) = true ->
  id_at_most (analysis_results_id_seq d') (AnalysisResult.id a) &&
  created_before (clock d') (AnalysisResult.created_at a) &&
  is_some (AnalysisResult_resume d' a) &&
  (negb (is_some (AnalysisResult.job_id a))
   || is_some (AnalysisResult_job d' a)) = true.
Proof.
  intros ([rs Hrs] & [js Hjs] & _ & _ & Hseq & Hclock) H.
  apply andb_true_iff in H as [H Hjob].
  apply andb_true_iff in H as [H Hres].
  apply andb_true_iff in H as [Hid Ht].
  rewrite (id_at_most_mono _ _ _ Hseq Hid),
    (created_before_mono _ _ _ Hclock Ht). cbn [andb].
  apply andb_true_iff. split.
  - unfold AnalysisResult_resume, first_resume in *.
    destruct (AnalysisResult.resume_id a); [ | discriminate Hres ].
    rewrite Hrs. now apply find_is_some_app.
  - unfold AnalysisResult_job, first_job in *.
    destruct (AnalysisResult.job_id a); [ | reflexivity ].
    cbn in *. rewrite Hjs. now apply find_is_some_app.
Qed.

Lemma forallb_impl {A : Type} (p q : A -> bool) (l : list A) :
  (forall x, p x = true -> q x = true) ->
  forallb p l = true -> forallb q l = true.
Proof.
  intros Hpq H. apply forallb_forall. intros x Hx.
  apply Hpq. now apply (proj1 (forallb_forall _ _) H).
Qed.

Lemma consistent_parts (d : Database) :
  consistent d = true ->
  forallb (fun r => id_at_most (resumes_id_seq d) (Resume.id r))
    (resumes d) = true /\
  forallb (fun j => id_at_most (jobs_id_seq d) (Job.id j)) (jobs d) = true /\
  forallb (fun a =>
             id_at_most (analysis_results_id_seq d) (AnalysisResult.id a) &&
             created_before (clock d) (AnalysisResult.created_at a) &&
             is_some (AnalysisResult_resume d a) &&
             (negb (is_some (AnalysisResult.job_id a))
              || is_some (AnalysisResult_job d a)))
    (analysis_results d) = true.
Proof.
  unfold consistent. intros H.
  apply andb_true_iff in H as [H Ha]. apply andb_true_iff in H as [Hr Hj].
  now repeat split.
Qed.

(** The store as a successful request leaves it. *)
Lemma analyze_resume_200_store (E : Env) (request : Request) (w : World)
  (resp : Response) (w' : World) :
  analyze_resume E request w = (resp, w') ->
  status_code resp = 200 ->
  exists resume_text an,
    resolve_resume_text E request = Resolved resume_text /\
    let d := database w in
    let jd_text := get_default (form_job_description request) "" in
    let r := Resume.Build (Some (resumes_id_seq d + 1)) resume_text
               (Some (clock d)) (Some (clock d)) in
    let j := Job.Build (Some (jobs_id_seq d + 1)) jd_text
               (Some (clock d + 1)) in
    let a := AnalysisResult.Build (Some (analysis_results_id_seq d + 1))
               (Some (resumes_id_seq d + 1))
               (if str_bool jd_text then Some (jobs_id_seq d + 1) else None)
               (option_map mr_match_score (an_match an))
               (ar_ats_score (an_ats an))
               (qr_quality_score (an_quality an))
               (an_ats an) (an_verbs an) (an_match an)
               (Some (if str_bool jd_text then clock d + 1 + 1
                      else clock d + 1)) in
    resp = (ResultsObject (results_of an a r
                             (if str_bool jd_text then Some j else None)),
            200) /\
    resumes (database w') = resumes d ++ [r] /\
    jobs (database w')
    = jobs d ++ (if str_bool jd_text then [j] else []) /\
    analysis_results (database w') = analysis_results d ++ [a] /\
    resumes_id_seq (database w') = resumes_id_seq d + 1 /\
    jobs_id_seq (database w')
    = (if str_bool jd_text then jobs_id_seq d + 1 else jobs_id_seq d) /\
    analysis_results_id_seq (database w') = analysis_results_id_seq d + 1 /\
    clock (database w')
    = (if str_bool jd_text then clock d + 1 + 1 + 1 else clock d + 1 + 1) /\
    stdout w' = stdout w.
Proof.
  intros Hrun H200.
  destruct (analyze_resume_200 _ _ _ _ _ Hrun H200)
    as (resume_text & an & Hres & _ & Hshape).
  exists resume_text, an. split; [ exact Hres | ].
  cbv zeta in *. unfold store_resume, store_job, store_analysis in Hshape.
  destruct (str_bool (get_default (form_job_description request) ""));
    cbn in Hshape; destruct Hshape as [-> ->]; cbn;
    repeat split; now rewrite ?app_nil_r.
Qed.

Lemma analyze_resume_extends (E : Env) (request : Request) (w : World) :
  extends (database w) (database (snd (analyze_resume E request w))).
Proof.
  destruct (Z.eq_dec (status_code (fst (analyze_resume E request w))) 200)
    as [H200|Hfail].
  - destruct (analyze_resume_200_store E request w _ _
                (surjective_pairing _) H200)
      as (resume_text & an & _ & H). cbv zeta in H.
    destruct H as (_ & Hr & Hj & _ & Hrs & Hjs & Has & Hc & _).
    unfold extends. rewrite Hr, Hj, Hrs, Hjs, Has, Hc.
    destruct (str_bool _); repeat split; eauto; lia.
  - rewrite (analyze_resume_failure_writes_nothing _ _ _ Hfail).
    unfold extends. repeat split; try lia; exists []; now rewrite app_nil_r.
Qed.

Lemma analyze_resume_consistent (E : Env) (request : Request) (w : World) :
  consistent (database w) = true ->
  consistent (database (snd (analyze_resume E request w))) = true.
Proof.
  intros Hc.
  destruct (Z.eq_dec (status_code (fst (analyze_resume E request w))) 200)
    as [H200|Hfail];
    [ | now rewrite (analyze_resume_failure_writes_nothing _ _ _ Hfail) ].
  pose proof (analyze_resume_extends E request w) as Hext.
  destruct (analyze_resume_200_store E request w _ _
              (surjective_pairing _) H200)
    as (resume_text & an & _ & H). cbv zeta in H.
  destruct H as (_ & Hr & Hj & Ha & Hrs & Hjs & Has & Hclk & _).
  destruct (consistent_parts _ Hc) as (Hcr & Hcj & Hca).
  set (d := database w) in *.
  set (d' := database (snd (analyze_resume E request w))) in *.
  unfold consistent. rewrite Hr, Hj at 1. rewrite Ha at 1.
  rewrite !forallb_app.
  apply andb_true_iff; split;
    [ apply andb_true_iff; split | ]; (apply andb_true_iff; split).
  - eapply forallb_impl; [ | exact Hcr ]. intros x.
    apply id_at_most_mono. lia.
  - cbn. rewrite Hrs, Z.leb_refl. reflexivity.
  - eapply forallb_impl; [ | exact Hcj ]. intros x.
    apply id_at_most_mono. rewrite Hjs. destruct (str_bool _); lia.
  - rewrite Hjs. destruct (str_bool _); cbn; [ | reflexivity ].
    now rewrite Z.leb_refl.
  - eapply forallb_impl; [ | exact Hca ]. intros x.
    now apply consistent_row_extends.
  - cbn [forallb AnalysisResult.id AnalysisResult.created_at
           AnalysisResult.job_id]. rewrite andb_true_r.
    repeat (apply andb_true_iff; split).
    + rewrite Has. cbn. apply Z.leb_refl.
    + rewrite Hclk. destruct (str_bool _); cbn; apply Z.ltb_lt; lia.
    + unfold AnalysisResult_resume, first_resume.
      cbn [AnalysisResult.resume_id]. rewrite Hr, find_app.
      rewrite (find_fresh_id Resume.id _ _ Hcr). cbn.
      now rewrite Z.eqb_refl.
    + destruct (str_bool _); [ | reflexivity ].
      unfold AnalysisResult_job, first_job. cbn [AnalysisResult.job_id].
      rewrite Hj, find_app, (find_fresh_id Job.id _ _ Hcj). cbn.
      now rewrite Z.eqb_refl.
Qed.

(** X11. When the store is consistent (keys handed out by their sequences,
    analyses created in the past, referring to a stored resume and, if they
    name one, to a stored job), it is consistent again after any analyze
    request, answered with 200, 400 or 500; and the store only grows: no
    row is changed or removed, and neither a sequence nor the clock goes
    back. *)
Theorem analyze_resume_keeps_the_store_consistent
  (E : Env) (request : Request) (w : World) :
  consistent (database w) = true ->
  consistent (database (snd (analyze_resume E request w))) = true /\
  extends (database w) (database (snd (analyze_resume E request w))) /\
  exists new_rows,
    analysis_results (database (snd (analyze_resume E request w)))
    = analysis_results (database w) ++ new_rows.
Proof.
  intros Hc. split; [ now apply analyze_resume_consistent | ].
  split; [ apply analyze_resume_extends | ].
  destruct (Z.eq_dec (status_code (fst (analyze_resume E request w))) 200)
    as [H200|Hfail].
  - destruct (analyze_resume_200_store E request w _ _
                (surjective_pairing _) H200)
      as (resume_text & an & _ & H). cbv zeta in H.
    destruct H as (_ & _ & _ & Ha & _). eauto.
  - rewrite (analyze_resume_failure_writes_nothing _ _ _ Hfail).
    exists []. now rewrite app_nil_r.
Qed.

Lemma consistent_witness :
  consistent (database Example.world0) = true /\
  consistent (database Example.world1) = true.
Proof.
  split; [ reflexivity | ].
  apply (analyze_resume_keeps_the_store_consistent
           Example.env Example.text_request Example.world0).
  reflexivity.
Defined.

(* ===================================================================== *)
(** * What was stored can be fetched *)
(* ===================================================================== *)

Lemma find_new_row {A : Type} (id : A -> option Z) (seq : Z) (l : list A)
  (x : A) :
  forallb (fun y => id_at_most seq (id y)) l = true ->
  id x = Some (seq + 1) ->
  find (fun y => opt_Z_eqb (id y) (Some (seq + 1))) (l ++ [x]) = Some x.
Proof.
  intros Hold Hx. rewrite find_app, (find_fresh_id id _ _ Hold). cbn.
  rewrite Hx. cbn. now rewrite Z.eqb_refl.
Qed.

(** X12. On a consistent store, the resume_id of a 200 response is a key no
    earlier row had, and [GET /resume/<resume_id>] right after returns 200
    with that key and the text that was just stored. *)
Theorem stored_resume_can_be_fetched
  (E : Env) (request : Request) (w : World) (resp : Response) (w' : World) :
  consistent (database w) = true ->
  analyze_resume E request w = (resp, w') ->
  status_code resp = 200 ->
  exists k r body,
    response_field Results.resume_id resp = Some k /\
    (forall old, In old (resumes (database w)) -> Resume.id old <> Some k) /\
    resumes (database w') = resumes (database w) ++ [r] /\
    get_resume k w' = ((ResumeObject body, 200), w') /\
    ResumeJson.id body = Some k /\
    ResumeJson.resume_text body = Resume.resume_text r.
Proof.
  intros Hc Hrun H200.
  destruct (analyze_resume_200_store _ _ _ _ _ Hrun H200)
    as (resume_text & an & _ & H). cbv zeta in H.
  destruct H as (-> & Hr & _).
  destruct (consistent_parts _ Hc) as (Hcr & _ & _).
  do 3 eexists. split; [ reflexivity | ].
  split.
  { intros old Hold. apply opt_Z_eqb_false_inv.
    exact (find_none _ _ (find_fresh_id Resume.id _ _ Hcr) old Hold). }
  split; [ exact Hr | ].
  unfold get_resume, route, bind, query. cbn [get_db world database].
  unfold first_resume. rewrite Hr.
  rewrite (find_new_row Resume.id) by first [ exact Hcr | reflexivity ].
  cbn. now repeat split.
Qed.

Lemma stored_resume_witness :
  exists k r body,
    response_field Results.resume_id
      (fst (analyze_resume Example.env Example.text_request Example.world0))
    = Some k /\
    (forall old, In old (resumes (database Example.world0)) ->
                 Resume.id old <> Some k) /\
    resumes (database Example.world1)
    = resumes (database Example.world0) ++ [r] /\
    get_resume k Example.world1 = ((ResumeObject body, 200), Example.world1) /\
    ResumeJson.id body = Some k /\
    ResumeJson.resume_text body = Resume.resume_text r.
Proof.
  apply (stored_resume_can_be_fetched
           Example.env Example.text_request Example.world0
           (fst (analyze_resume Example.env Example.text_request
                   Example.world0))
           Example.world1).
  - reflexivity.
  - apply surjective_pairing.
  - reflexivity.
Defined.

(** X13. On a consistent store, [GET /analysis/<analysis_id>] right after a
    200 response returns 200 with the scores and reports of that response,
    the whole text of the resume just stored, and the job description that
    was supplied (null when none was). *)
Theorem stored_analysis_can_be_fetched
  (E : Env) (request : Request) (w : World) (res : Results.t) (w' : World) :
  consistent (database w) = true ->
  analyze_resume E request w = ((ResultsObject res, 200), w') ->
  exists k r body,
    Results.analysis_id res = Some k /\
    resumes (database w') = resumes (database w) ++ [r] /\
    get_analysis k w' = ((AnalysisObject body, 200), w') /\
    AnalysisJson.id body = Some k /\
    AnalysisJson.resume_id body = Results.resume_id res /\
    AnalysisJson.job_id body = Results.job_id res /\
    AnalysisJson.match_score body = Results.match_score res /\
    AnalysisJson.match_details body = Results.match_details res /\
    AnalysisJson.ats_score body = Results.ats_score res /\
    AnalysisJson.ats_flags body = Results.ats_report res /\
    AnalysisJson.quality_score body = Results.quality_score res /\
    AnalysisJson.power_verb_suggestions body = Results.power_verbs res /\
    AnalysisJson.resume_text body = Some (Resume.resume_text r) /\
    AnalysisJson.job_description body
    = (if jd_supplied request
       then Some (get_default (form_job_description request) "")
       else None).
Proof.
  intros Hc Hrun.
  destruct (analyze_resume_200_store _ _ _ _ _ Hrun eq_refl)
    as (resume_text & an & _ & H). cbv zeta in H.
  destruct H as (Hresp & Hr & Hj & Ha & _).
  injection Hresp as ->.
  destruct (consistent_parts _ Hc) as (Hcr & Hcj & Hca).
  assert (Hca' : forallb
                   (fun a => id_at_most
                               (analysis_results_id_seq (database w))
                               (AnalysisResult.id a))
                   (analysis_results (database w)) = true).
  { eapply forallb_impl; [ | exact Hca ]. intros x Hx.
    apply andb_true_iff in Hx as [Hx _]. apply andb_true_iff in Hx as [Hx _].
    now apply andb_true_iff in Hx as [Hx _]. }
  unfold jd_supplied.
  destruct (str_bool (get_default (form_job_description request) ""))
    eqn:Hjd; rewrite ?Hjd in *;
    (do 3 eexists; split; [ reflexivity | ]; split; [ exact Hr | ];
     unfold get_analysis, route, bind, query; cbn [get_db world database];
     unfold first_analysis_result; rewrite Ha;
     rewrite (find_new_row AnalysisResult.id)
       by first [ exact Hca' | reflexivity ];
     cbv beta iota; cbn [get_db world database];
     unfold AnalysisResult_resume, AnalysisResult_job, first_resume,
       first_job;
     cbn [AnalysisResult.resume_id AnalysisResult.job_id];
     rewrite Hr, ?Hj;
     rewrite (find_new_row Resume.id) by first [ exact Hcr | reflexivity ];
     rewrite ?(find_new_row Job.id) by first [ exact Hcj | reflexivity ];
     cbn; unfold jsonify; split; [ reflexivity | now repeat split ]).
Qed.

Lemma stored_analysis_witness :
  exists k r body,
    Results.analysis_id Example.results1 = Some k /\
    resumes (database Example.world1)
    = resumes (database Example.world0) ++ [r] /\
    get_analysis k Example.world1
    = ((AnalysisObject body, 200), Example.world1) /\
    AnalysisJson.id body = Some k /\
    AnalysisJson.resume_id body = Results.resume_id Example.results1 /\
    AnalysisJson.job_id body = Results.job_id Example.results1 /\
    AnalysisJson.match_score body = Results.match_score Example.results1 /\
    AnalysisJson.match_details body
    = Results.match_details Example.results1 /\
    AnalysisJson.ats_score body = Results.ats_score Example.results1 /\
    AnalysisJson.ats_flags body = Results.ats_report Example.results1 /\
    AnalysisJson.quality_score body
    = Results.quality_score Example.results1 /\
    AnalysisJson.power_verb_suggestions body
    = Results.power_verbs Example.results1 /\
    AnalysisJson.resume_text body = Some (Resume.resume_text r) /\
    AnalysisJson.job_description body
    = (if jd_supplied Example.text_request
       then Some (get_default (form_job_description Example.text_request) "")
       else None).
Proof.
  apply (stored_analysis_can_be_fetched
           Example.env Example.text_request Example.world0
           Example.results1 Example.world1).
  - reflexivity.
  - vm_compute. reflexivity.
Defined.

(* ===================================================================== *)
(** * The history of a consistent store *)
(* ===================================================================== *)

Lemma entries_of_total (d : Database) (rows : list AnalysisResult.t) :
  (forall item, In item rows ->
                is_some (AnalysisResult_resume d item) = true) ->
  exists es, entries_of d rows = Ok es.
Proof.
  induction rows as [|item rest IH]; cbn; intros Hall.
  - now exists [].
  - pose proof (Hall item (or_introl eq_refl)) as Hitem.
    destruct (AnalysisResult_resume d item) as [r|]; [ | discriminate ].
    destruct IH as [es ->]; [ intros x Hx; apply Hall; now right | ].
    cbn. eauto.
Qed.

Lemma consistent_rows (d : Database) (item : AnalysisResult.t) :
  consistent d = true -> In item (analysis_results d) ->
  is_some (AnalysisResult_resume d item) = true /\
  created_before (clock d) (AnalysisResult.created_at item) = true.
Proof.
  intros Hc Hin. destruct (consistent_parts _ Hc) as (_ & _ & Hca).
  apply (proj1 (forallb_forall _ _) Hca) in Hin.
  apply andb_true_iff in Hin as [Hin _].
  apply andb_true_iff in Hin as [Hin Hres].
  apply andb_true_iff in Hin as [_ Ht]. now split.
Qed.

(** X14. On a consistent store the history does not fail: for every limit
    from 0 to the largest count the store takes (and so for an absent or
    unreadable one) the route answers 200 with a list, since every stored
    analysis has its resume. *)
Theorem history_of_a_consistent_store_is_returned
  (args_limit : QueryArg) (w : World) :
  consistent (database w) = true ->
  0 <= get_int args_limit 20 <= bigint_max ->
  exists history,
    get_history args_limit w = ((HistoryArray history, 200), w).
Proof.
  intros Hc [Hn _]. rewrite get_history_normal_form.
  unfold get_history_nf, limit.
  destruct (Z.ltb_spec (get_int args_limit 20) 0); [ lia | ].
  destruct (entries_of_total (database w)
              (firstn (Z.to_nat (get_int args_limit 20))
                 (order_by_created_at_desc
                    (analysis_results (database w))))) as [es ->].
  - intros item Hin. apply in_firstn in Hin.
    apply (Permutation_in _ (order_by_permutation _)) in Hin.
    now apply consistent_rows.
  - now exists es.
Qed.

Lemma history_of_a_consistent_store_witness :
  exists history,
    get_history Absent Example.world1
    = ((HistoryArray history, 200), Example.world1).
Proof.
  apply (history_of_a_consistent_store_is_returned Absent Example.world1).
  - vm_compute. reflexivity.
  - split; discriminate.
Defined.

Lemma order_by_snoc (l : list AnalysisResult.t) (a : AnalysisResult.t) :
  order_by_created_at_desc (l ++ [a])
  = insert_by_created_at_desc a (order_by_created_at_desc l).
Proof.
  unfold order_by_created_at_desc. now rewrite rev_app_distr.
Qed.

Lemma insert_newest (a : AnalysisResult.t) (l : list AnalysisResult.t) :
  (forall b, In b l ->
             created_desc (AnalysisResult.created_at b)
               (AnalysisResult.created_at a) = false) ->
  insert_by_created_at_desc a l = a :: l.
Proof.
  destruct l as [|b l]; cbn; [ reflexivity | ].
  intros H. now rewrite (H b (or_introl eq_refl)).
Qed.

(** X15. On a consistent store, the analysis a 200 response reports is the
    newest one: a history asked right after with a limit of at least 1 (and
    at most the largest count the store takes) starts with the entry of
    that analysis, with the preview of the resume just stored. *)
Theorem new_analysis_heads_the_history
  (E : Env) (request : Request) (w : World) (res : Results.t) (w' : World)
  (n : Z) :
  consistent (database w) = true ->
  analyze_resume E request w = ((ResultsObject res, 200), w') ->
  1 <= n <= bigint_max ->
  exists r e rest,
    resumes (database w') = resumes (database w) ++ [r] /\
    get_history (AnInt n) w' = ((HistoryArray (e :: rest), 200), w') /\
    HistoryEntry.id e = Results.analysis_id res /\
    HistoryEntry.resume_id e = Results.resume_id res /\
    HistoryEntry.job_id e = Results.job_id res /\
    HistoryEntry.match_score e = Results.match_score res /\
    HistoryEntry.ats_score e = Results.ats_score res /\
    HistoryEntry.quality_score e = Results.quality_score res /\
    HistoryEntry.resume_preview e = preview (Resume.resume_text r).
Proof.
  intros Hc Hrun [Hn _].
  pose proof (analyze_resume_consistent E request w Hc) as Hc'.
  rewrite Hrun in Hc'. cbn [snd] in Hc'.
  destruct (analyze_resume_200_store _ _ _ _ _ Hrun eq_refl)
    as (resume_text & an & _ & H). cbv zeta in H.
  destruct H as (Hresp & Hr & Hj & Ha & _ & _ & _ & Hclk & _).
  injection Hresp as ->.
  destruct (consistent_parts _ Hc) as (Hcr & _ & _).
  set (r := Resume.Build _ resume_text _ _) in *.
  set (a := AnalysisResult.Build _ _ _ _ _ _ _ _ _ _) in *.
  assert (Hsorted : order_by_created_at_desc (analysis_results (database w'))
                    = a :: order_by_created_at_desc
                             (analysis_results (database w))).
  { rewrite Ha, order_by_snoc. apply insert_newest. intros b Hb.
    apply (Permutation_in _ (order_by_permutation _)) in Hb.
    destruct (consistent_rows _ _ Hc Hb) as [_ Ht].
    destruct (AnalysisResult.created_at b) as [t|]; [ | discriminate Ht ].
    cbn in Ht. apply Z.ltb_lt in Ht. subst a. cbn.
    apply Z.leb_gt. destruct (str_bool _); lia. }
  assert (Hres : AnalysisResult_resume (database w') a = Some r).
  { unfold AnalysisResult_resume, first_resume. subst a.
    cbn [AnalysisResult.resume_id]. rewrite Hr.
    now rewrite (find_new_row Resume.id) by first [ exact Hcr | reflexivity ]. }
  rewrite get_history_normal_form. unfold get_history_nf, limit.
  cbn [get_int]. destruct (Z.ltb_spec n 0); [ lia | ].
  rewrite Hsorted.
  destruct (Z.to_nat n) as [|m] eqn:Hm; [ lia | ]. cbn [firstn entries_of].
  rewrite Hres.
  destruct (entries_of_total (database w')
              (firstn m (order_by_created_at_desc
                           (analysis_results (database w))))) as [es ->].
  - intros item Hin. apply in_firstn in Hin.
    apply (Permutation_in _ (order_by_permutation _)) in Hin.
    apply (consistent_rows _ _ Hc'). rewrite Ha. apply in_or_app. now left.
  - exists r. do 2 eexists. split; [ exact Hr | ].
    cbn [and_then]. split; [ reflexivity | ]. subst a. cbn.
    destruct (str_bool _); now repeat split.
Qed.

Lemma new_analysis_heads_the_history_witness :
  exists r e rest,
    resumes (database Example.world1)
    = resumes (database Example.world0) ++ [r] /\
    get_history (AnInt 1) Example.world1
    = ((HistoryArray (e :: rest), 200), Example.world1) /\
    HistoryEntry.id e = Results.analysis_id Example.results1 /\
    HistoryEntry.resume_id e = Results.resume_id Example.results1 /\
    HistoryEntry.job_id e = Results.job_id Example.results1 /\
    HistoryEntry.match_score e = Results.match_score Example.results1 /\
    HistoryEntry.ats_score e = Results.ats_score Example.results1 /\
    HistoryEntry.quality_score e = Results.quality_score Example.results1 /\
    HistoryEntry.resume_preview e = preview (Resume.resume_text r).
Proof.
  apply (new_analysis_heads_the_history
           Example.env Example.text_request Example.world0
           Example.results1 Example.world1 1).
  - reflexivity.
  - vm_compute. reflexivity.
  - split; discriminate.
Defined.

(* ===================================================================== *)
(** * Fetching, paging and numbering *)
(* ===================================================================== *)

Lemma opt_Z_eqb_true (o : option Z) (k : Z) :
  opt_Z_eqb o (Some k) = true <-> o = Some k.
Proof.
  destruct o as [x|]; cbn; [ | easy ].
  rewrite Z.eqb_eq. split; congruence.
Qed.

Lemma find_by_id_Some {A : Type} (id : A -> option Z) (k : Z) (l : list A)
  (x : A) :
  find (fun y => opt_Z_eqb (id y) (Some k)) l = Some x ->
  In x l /\ id x = Some k.
Proof.
  intros H. apply find_some in H as [Hin Hid].
  split; [ exact Hin | now apply opt_Z_eqb_true ].
Qed.

Lemma find_by_id_None {A : Type} (id : A -> option Z) (k : Z) (l : list A) :
  find (fun y => opt_Z_eqb (id y) (Some k)) l = None ->
  ~ exists x, In x l /\ id x = Some k.
Proof.
  intros H (x & Hin & Hid). apply (find_none _ _ H) in Hin. cbn in Hin.
  apply opt_Z_eqb_true in Hid. congruence.
Qed.

Lemma get_resume_cases (k : Z) (w : World) :
  get_resume k w
  = match first_resume k (database w) with
    | Some r =>
        ((ResumeObject
            (ResumeJson.Build (Resume.id r) (Resume.resume_text r)
               (option_map isoformat (Resume.created_at r))
               (option_map isoformat (Resume.updated_at r))), 200), w)
    | None => ((ErrorObject "Resume not found", 404), w)
    end.
Proof.
  unfold get_resume, route, bind, query. cbn [get_db world database].
  destruct (first_resume k (database w)); reflexivity.
Qed.

Lemma get_analysis_status (k : Z) (w : World) :
  status_code (fst (get_analysis k w))
  = match first_analysis_result k (database w) with
    | Some _ => 200
    | None => 404
    end.
Proof.
  unfold get_analysis, route, bind, query. cbn [get_db world database].
  destruct (first_analysis_result k (database w)); reflexivity.
Qed.

(** X16. [GET /resume/<id>] answers 200 exactly when a stored resume has
    the key, with that key and the text of a stored row that has it, and
    404 otherwise; [GET /analysis/<id>] likewise.  Neither ever answers
    500. *)
Theorem fetch_answers_200_iff_the_key_is_stored (k : Z) (w : World) :
  (status_code (fst (get_resume k w)) = 200 <->
   exists r, In r (resumes (database w)) /\ Resume.id r = Some k) /\
  (status_code (fst (get_analysis k w)) = 200 <->
   exists a, In a (analysis_results (database w)) /\
             AnalysisResult.id a = Some k) /\
  (status_code (fst (get_resume k w)) = 200 \/
   status_code (fst (get_resume k w)) = 404) /\
  (status_code (fst (get_analysis k w)) = 200 \/
   status_code (fst (get_analysis k w)) = 404) /\
  (forall body st,
     fst (get_resume k w) = (ResumeObject body, st) ->
     ResumeJson.id body = Some k /\
     exists r, In r (resumes (database w)) /\ Resume.id r = Some k /\
               ResumeJson.resume_text body = Resume.resume_text r).
Proof.
  rewrite get_resume_cases, get_analysis_status.
  unfold first_resume, first_analysis_result.
  split; [ | split; [ | split; [ | split ] ] ].
  - destruct (find _ (resumes (database w))) as [r|] eqn:Hr; cbn.
    + apply find_by_id_Some in Hr. split; [ eauto | reflexivity ].
    + apply find_by_id_None in Hr. split; [ discriminate | easy ].
  - destruct (find _ (analysis_results (database w))) as [a|] eqn:Ha.
    + apply find_by_id_Some in Ha. split; [ eauto | reflexivity ].
    + apply find_by_id_None in Ha. split; [ discriminate | easy ].
  - destruct (find _ (resumes (database w))); cbn; auto.
  - destruct (find _ (analysis_results (database w))); auto.
  - intros body st.
    destruct (find _ (resumes (database w))) as [r|] eqn:Hr; cbn;
      [ | discriminate ].
    apply find_by_id_Some in Hr as [Hin Hid].
    intros H. injection H as <- _. cbn. split; [ exact Hid | eauto ].
Qed.

Lemma fetch_witness :
  status_code (fst (get_resume 1 Example.world1)) = 200.
Proof.
  apply (proj2 (proj1 (fetch_answers_200_iff_the_key_is_stored
                         1 Example.world1))).
  exists Sample.resume1.
  split; [ vm_compute; left; reflexivity | reflexivity ].
Defined.

Lemma entries_of_firstn (d : Database) (rows : list AnalysisResult.t)
  (es : list HistoryEntry.t) (n : nat) :
  entries_of d rows = Ok es ->
  entries_of d (firstn n rows) = Ok (firstn n es).
Proof.
  revert rows es. induction n as [|n IH]; intros rows es H;
    [ reflexivity | ].
  destruct rows as [|item rest]; cbn in *.
  - now injection H as <-.
  - destruct (AnalysisResult_resume d item) as [r|]; [ | discriminate ].
    apply and_then_Ok in H as (es' & Hes' & H). injection H as <-.
    now rewrite (IH _ _ Hes').
Qed.

Lemma firstn_firstn_le {A : Type} (n m : nat) (l : list A) :
  (n <= m)%nat -> firstn n (firstn m l) = firstn n l.
Proof. intros H. rewrite firstn_firstn. now rewrite Nat.min_l. Qed.

Lemma created_desc_antisym (a b : option datetime) :
  created_desc a b = true -> created_desc b a = true -> a = b.
Proof.
  destruct a as [x|], b as [y|]; cbn; try easy.
  rewrite !Z.leb_le. intros H1 H2. f_equal. lia.
Qed.

Lemma NoDup_map_injective {A B : Type} (f : A -> B) (l : list A) (a b : A) :
  NoDup (map f l) -> In a l -> In b l -> f a = f b -> a = b.
Proof.
  induction l as [|x l IH]; cbn; [ easy | ].
  intros Hnd. inversion Hnd as [|? ? Hx Hl]; subst.
  intros [<-|Ha] [<-|Hb] Heq; auto.
  - contradiction Hx. rewrite Heq. now apply in_map.
  - contradiction Hx. rewrite <- Heq. now apply in_map.
Qed.

Lemma sorted_permutation_unique (l1 l2 : list AnalysisResult.t) :
  (forall a b, In a l1 -> In b l1 -> no_older a b -> no_older b a -> a = b) ->
  StronglySorted no_older l1 -> StronglySorted no_older l2 ->
  Permutation l1 l2 -> l1 = l2.
Proof.
  revert l2. induction l1 as [|x l1 IH]; intros l2 Hanti S1 S2 Hperm.
  - apply Permutation_nil in Hperm. now subst.
  - destruct l2 as [|y l2];
      [ apply Permutation_sym, Permutation_nil in Hperm; discriminate | ].
    inversion S1 as [|? ? S1' F1]; subst.
    inversion S2 as [|? ? S2' F2]; subst.
    assert (Hxy : x = y).
    { pose proof (Permutation_in x Hperm (or_introl eq_refl)) as Hx.
      pose proof (Permutation_in y (Permutation_sym Hperm)
                    (or_introl eq_refl)) as Hy.
      destruct Hx as [Hx|Hx]; [ now symmetry | ].
      destruct Hy as [Hy|Hy]; [ exact Hy | ].
      apply Hanti; [ now left | now right | | ].
      - exact (proj1 (Forall_forall _ _) F1 y Hy).
      - exact (proj1 (Forall_forall _ _) F2 x Hx). }
    subst y. f_equal. apply IH; try assumption.
    + intros a b Ha Hb. apply Hanti; now right.
    + exact (Permutation_cons_inv Hperm).
Qed.

(** Without ties the order is forced: every arrangement of the rows that is
    sorted by creation time, newest first, is the one the model computes. *)
Lemma order_without_ties_is_determined (d : Database)
  (sorted : list AnalysisResult.t) :
  distinct_creation_times d ->
  Permutation sorted (analysis_results d) ->
  StronglySorted no_older sorted ->
  sorted = order_by_created_at_desc (analysis_results d).
Proof.
  intros Hnd Hperm Hsorted. apply sorted_permutation_unique.
  - intros a b Ha Hb Hab Hba.
    apply (NoDup_map_injective AnalysisResult.created_at
             (analysis_results d)); try assumption.
    + exact (Permutation_in _ Hperm Ha).
    + exact (Permutation_in _ Hperm Hb).
    + now apply created_desc_antisym.
  - exact Hsorted.
  - apply order_by_sorted.
  - rewrite Hperm. symmetry. apply order_by_permutation.
Qed.

(** X17. Paging is by prefix when no two stored analyses share a creation
    time: if the history for a limit m (at most the largest count the store
    takes) is returned, the history for any smaller limit n, not negative,
    is returned too and is its first n entries.  (With distinct creation
    times the order of the rows is forced, see
    [order_without_ties_is_determined]; with ties SQL may order two queries
    differently.) *)
Theorem smaller_limit_gives_a_prefix
  (n m : Z) (w : World) (history : list HistoryEntry.t) (st : Z)
  (w' : World) :
  distinct_creation_times (database w) ->
  0 <= n <= m ->
  m <= bigint_max ->
  get_history (AnInt m) w = ((HistoryArray history, st), w') ->
  get_history (AnInt n) w
  = ((HistoryArray (firstn (Z.to_nat n) history), 200), w).
Proof.
  intros _ Hnm _ Hrun.
  apply get_history_returns in Hrun as (_ & _ & _ & Hes). cbn [get_int] in Hes.
  rewrite get_history_normal_form. unfold get_history_nf, limit.
  cbn [get_int]. destruct (Z.ltb_spec n 0); [ lia | ].
  rewrite <- (firstn_firstn_le (Z.to_nat n) (Z.to_nat m)) by lia.
  now rewrite (entries_of_firstn _ _ _ (Z.to_nat n) Hes).
Qed.

Lemma smaller_limit_witness :
  get_history (AnInt 1) Example.world2
  = ((HistoryArray (firstn (Z.to_nat 1) Sample.history2), 200),
     Example.world2).
Proof.
  apply (smaller_limit_gives_a_prefix 1 20 Example.world2 Sample.history2
           200 Example.world2).
  - vm_compute. repeat constructor; cbn; intuition discriminate.
  - lia.
  - discriminate.
  - vm_compute. reflexivity.
Defined.

(** X18. Keys are handed out one after the other: of two requests answered
    with 200, the second right after the first, the second gets the next
    resume_id and the next analysis_id. *)
Theorem successive_analyses_get_successive_keys
  (E1 E2 : Env) (request1 request2 : Request) (w w1 w2 : World)
  (res1 res2 : Results.t) :
  analyze_resume E1 request1 w = ((ResultsObject res1, 200), w1) ->
  analyze_resume E2 request2 w1 = ((ResultsObject res2, 200), w2) ->
  exists k a,
    Results.resume_id res1 = Some k /\
    Results.resume_id res2 = Some (k + 1) /\
    Results.analysis_id res1 = Some a /\
    Results.analysis_id res2 = Some (a + 1).
Proof.
  intros H1 H2.
  destruct (analyze_resume_200_store _ _ _ _ _ H1 eq_refl)
    as (t1 & an1 & _ & S1). cbv zeta in S1.
  destruct S1 as (R1 & _ & _ & _ & Hrs & _ & Has & _).
  destruct (analyze_resume_200_store _ _ _ _ _ H2 eq_refl)
    as (t2 & an2 & _ & S2). cbv zeta in S2.
  destruct S2 as (R2 & _).
  injection R1 as ->. injection R2 as ->. cbn.
  rewrite Hrs, Has. do 2 eexists. repeat split.
Qed.

Lemma successive_keys_witness :
  exists k a,
    Results.resume_id Example.results1 = Some k /\
    Results.resume_id Sample.results2 = Some (k + 1) /\
    Results.analysis_id Example.results1 = Some a /\
    Results.analysis_id Sample.results2 = Some (a + 1).
Proof.
  apply (successive_analyses_get_successive_keys
           Example.env Example.env Example.text_request
           Example.text_only_request Example.world0 Example.world1
           Example.world2 Example.results1 Sample.results2);
    vm_compute; reflexivity.
Defined.
